(** * Shallow embedding of the three LangChain demonstration scripts

    [src/main.py], [src/Simplechain.py] and [src/prompt.py] are glue code
    around the prompting library: every statement either builds a library
    object or calls one.  The scripts are embedded statement by statement;
    the library calls they make are embedded next to them, each with the
    name it has in the library, so that a script reads here as it reads in
    Python.  The hosted completion model is the one thing left abstract: it
    is the class [Model], an arbitrary (possibly failing, possibly
    history-dependent) function from requests to answers.

    Left out, as nothing below depends on them: the credential read from
    the environment at the top of each script, and the console log that
    [verbose=True] makes the chains of [Simplechain.py] write. *)

From Stdlib Require Import Ascii String.
From stdpp Require Import gmap strings list fin_maps pretty.
From Stdlib Require Import QArith_base.
Local Close Scope Q_scope.

Local Open Scope string_scope.

(** ** Exceptions and results *)

(** The exceptions that can travel through the scripts.  Python raises
    [KeyError] both for a placeholder without a value and for a value
    without a placeholder; the two are told apart by their argument (a key,
    or a set of keys), which is what the two constructors record. *)
Inductive exn : Type :=
  | KeyError (key : string)
  | KeyError_extra (keys : gset string)
  | IndexError
  | TypeError
  | ValueError (msg : string)
  | Unsupported
  | APIError (msg : string).

Inductive result (A : Type) : Type :=
  | Ok (a : A)
  | Raise (e : exn).
Arguments Ok {A} a.
Arguments Raise {A} e.

Definition is_ok {A} (r : result A) : bool :=
  match r with Ok _ => true | Raise _ => false end.

(** [sep.join(pieces)] *)
Fixpoint join (sep : string) (pieces : list string) : string :=
  match pieces with
  | [] => ""
  | [p] => p
  | p :: rest => p ++ sep ++ join sep rest
  end.

(** ** The template renderer: [string.Formatter] as [StrictFormatter] uses it *)

(** A text is a sequence of characters, each of them a code point below
    256.  The renderer is [string.Formatter] of the standard library
    with the two overrides of [StrictFormatter]; its code is embedded in
    full, the iterators of the [_string] module included.  Of the
    built-ins it hands a value to, indexing a text and [str] of a text are
    embedded; [getattr], [repr], [ascii] and [format] with a format
    specification that is not empty are not, and a field that reaches one
    of them is answered with [Unsupported].  No template of the three
    scripts has such a field, and every statement below about arbitrary
    templates names the templates it is about. *)
Module Formatter.

(** What the format-string iterator yields: a run of literal text, or a
    replacement field with its name and its format specification as they
    are written, and its conversion character. *)
Inductive item : Type :=
  | Literal (text : string)
  | Field (field_name format_spec : string) (conversion : option ascii).

(** An iterator is a generator: it yields what it has read and only then
    raises on a malformed rest, which a [stream] keeps as the things
    yielded followed by the pending exception. *)
Definition stream (A : Type) : Type := list A * option exn.

Definition stop {A} (e : exn) : stream A := ([], Some e).

Definition push_char (c : ascii) (s : stream item) : stream item :=
  match s with
  | (Literal t :: rest, e) => (Literal (String c t) :: rest, e)
  | (rest, e) => (Literal (String c "") :: rest, e)
  end.

Definition push_field (field_name format_spec : string)
    (conversion : option ascii) (s : stream item) : stream item :=
  (Field field_name format_spec conversion :: s.1, s.2).

Definition snoc (s : string) (c : ascii) : string := s ++ String c "".

(** Where the iterator is in the format string: in literal text; in the
    name of a field, outside or inside square brackets; after the [!] of a
    conversion; after the conversion character; in the format
    specification, [count] braces deep. *)
Inductive mode : Type :=
  | Text
  | Name (name : string)
  | Index (name : string)
  | Bang (name : string)
  | Converted (name : string) (c : ascii)
  | Spec (name : string) (conversion : option ascii) (spec : string)
      (count : nat).

(** A conversion character that is the null character reads as no
    conversion. *)
Definition conversion_of (c : ascii) : option ascii :=
  if bool_decide (c = zero) then None else Some c.

(** [MarkupIterator_next] and [parse_field]. *)
Fixpoint parse_from (m : mode) (s : string) : stream item :=
  match m, s with
  | Text, EmptyString => ([], None)
  | Text, String c s' =>
      if bool_decide (c = "{"%char) then
        match s' with
        | EmptyString =>
            stop (ValueError "Single '{' encountered in format string")
        | String c' s'' =>
            if bool_decide (c' = "{"%char)
            then push_char "{" (parse_from Text s'')
            else parse_from (Name "") s'
        end
      else if bool_decide (c = "}"%char) then
        match s' with
        | EmptyString =>
            stop (ValueError "Single '}' encountered in format string")
        | String c' s'' =>
            if bool_decide (c' = "}"%char)
            then push_char "}" (parse_from Text s'')
            else stop (ValueError "Single '}' encountered in format string")
        end
      else push_char c (parse_from Text s')
  | Name _, EmptyString | Index _, EmptyString =>
      stop (ValueError "expected '}' before end of string")
  | Name name, String c s' =>
      if bool_decide (c = "{"%char)
      then stop (ValueError "unexpected '{' in field name")
      else if bool_decide (c = "["%char) then parse_from (Index (snoc name c)) s'
      else if bool_decide (c = "}"%char)
      then push_field name "" None (parse_from Text s')
      else if bool_decide (c = ":"%char) then parse_from (Spec name None "" 1) s'
      else if bool_decide (c = "!"%char) then parse_from (Bang name) s'
      else parse_from (Name (snoc name c)) s'
  | Index name, String c s' =>
      if bool_decide (c = "]"%char) then parse_from (Name (snoc name c)) s'
      else parse_from (Index (snoc name c)) s'
  | Bang _, EmptyString =>
      stop (ValueError "end of string while looking for conversion specifier")
  | Bang name, String c s' => parse_from (Converted name c) s'
  | Converted _ _, EmptyString | Spec _ _ _ _, EmptyString =>
      stop (ValueError "unmatched '{' in format spec")
  | Converted name conversion, String c s' =>
      if bool_decide (c = "}"%char)
      then push_field name "" (conversion_of conversion) (parse_from Text s')
      else if bool_decide (c = ":"%char)
      then parse_from (Spec name (conversion_of conversion) "" 1) s'
      else stop (ValueError "expected ':' after conversion specifier")
  | Spec name conversion spec count, String c s' =>
      if bool_decide (c = "{"%char)
      then parse_from (Spec name conversion (snoc spec c) (S count)) s'
      else if bool_decide (c = "}"%char) then
        match count with
        | 0 | 1 => push_field name spec conversion (parse_from Text s')
        | S count' => parse_from (Spec name conversion (snoc spec c) count') s'
        end
      else parse_from (Spec name conversion (snoc spec c) count) s'
  end.

Definition parse (format_string : string) : stream item :=
  parse_from Text format_string.

(** A decimal digit, and [str.isdigit] of a character: the decimal
    digits and the three superscript digits below 256. *)
Definition is_decimal (c : ascii) : bool :=
  let n := N_of_ascii c in ((48 <=? n) && (n <=? 57))%N.

Definition is_digit (c : ascii) : bool :=
  is_decimal c || bool_decide (N_of_ascii c ∈ [178; 179; 185]%N).

Fixpoint all_digits (s : string) : bool :=
  match s with
  | EmptyString => true
  | String c s' => is_digit c && all_digits s'
  end.

(** [str.isdigit] *)
Definition isdigit (s : string) : bool :=
  match s with
  | EmptyString => false
  | _ => all_digits s
  end.

Definition PY_SSIZE_T_MAX : N := 9223372036854775807.

(** [get_integer]: the number a text of decimal digits stands for, none
    for any other text; the overflow is found digit by digit. *)
Fixpoint get_integer_from (accumulator : N) (s : string) : result (option N) :=
  match s with
  | EmptyString => Ok (Some accumulator)
  | String c s' =>
      if is_decimal c then
        let digitval := (N_of_ascii c - 48)%N in
        if ((PY_SSIZE_T_MAX - digitval) / 10 <? accumulator)%N
        then Raise (ValueError "Too many decimal digits in format string")
        else get_integer_from (accumulator * 10 + digitval) s'
      else Ok None
  end.

Definition get_integer (s : string) : result (option N) :=
  match s with
  | EmptyString => Ok None
  | _ => get_integer_from 0 s
  end.

(** What a value is looked up with: a position or a name. *)
Inductive key : Type :=
  | Position (n : N)
  | Keyword (k : string).

Definition to_key (s : string) : result key :=
  match get_integer s with
  | Raise e => Raise e
  | Ok (Some n) => Ok (Position n)
  | Ok None => Ok (Keyword s)
  end.

(** The lookups that follow the first part of a field name, [.name] or
    [[key]]. *)
Inductive lookup : Type :=
  | Attribute (name : string)
  | Item (k : key).

Inductive part : Type :=
  | Rest
  | InAttribute (name : string)
  | InItem (name : string).

Definition push_attribute (name : string) (s : stream lookup) : stream lookup :=
  match name with
  | EmptyString => stop (ValueError "Empty attribute in format string")
  | _ => (Attribute name :: s.1, s.2)
  end.

Definition push_item (name : string) (s : stream lookup) : stream lookup :=
  match to_key name with
  | Raise e => stop e
  | Ok k =>
      match name with
      | EmptyString => stop (ValueError "Empty attribute in format string")
      | _ => (Item k :: s.1, s.2)
      end
  end.

(** [FieldNameIterator_next] *)
Fixpoint lookups_from (p : part) (s : string) : stream lookup :=
  match p, s with
  | Rest, EmptyString => ([], None)
  | Rest, String c s' =>
      if bool_decide (c = "."%char) then lookups_from (InAttribute "") s'
      else if bool_decide (c = "["%char) then lookups_from (InItem "") s'
      else stop (ValueError "Only '.' or '[' may follow ']' in format field specifier")
  | InAttribute name, EmptyString => push_attribute name ([], None)
  | InAttribute name, String c s' =>
      if bool_decide (c = "."%char)
      then push_attribute name (lookups_from (InAttribute "") s')
      else if bool_decide (c = "["%char)
      then push_attribute name (lookups_from (InItem "") s')
      else lookups_from (InAttribute (snoc name c)) s'
  | InItem _, EmptyString => stop (ValueError "Missing ']' in format string")
  | InItem name, String c s' =>
      if bool_decide (c = "]"%char) then push_item name (lookups_from Rest s')
      else lookups_from (InItem (snoc name c)) s'
  end.

(** [field_name_split]: the first part of a field name, up to the first
    [.] or [[], and what follows it. *)
Fixpoint field_name_split (field_name : string) : string * string :=
  match field_name with
  | EmptyString => ("", "")
  | String c s' =>
      if bool_decide (c = "."%char \/ c = "["%char) then ("", field_name)
      else let '(first, rest) := field_name_split s' in (String c first, rest)
  end.

(** [get_value]: a position is looked up in the positional arguments, of
    which [StrictFormatter] accepts none; a name in the keyword
    arguments. *)
Definition get_value (k : key) (kwargs : gmap string string) : result string :=
  match k with
  | Position _ => Raise IndexError
  | Keyword name =>
      match kwargs !! name with
      | Some v => Ok v
      | None => Raise (KeyError name)
      end
  end.

Fixpoint get_char (n : N) (s : string) : option ascii :=
  match s with
  | EmptyString => None
  | String c s' => if (n =? 0)%N then Some c else get_char (N.pred n) s'
  end.

(** [obj[i]] for a text [obj]. *)
Definition getitem (obj : string) (k : key) : result string :=
  match k with
  | Position n =>
      match get_char n obj with
      | Some c => Ok (String c "")
      | None => Raise IndexError
      end
  | Keyword _ => Raise TypeError
  end.

(** The loop of [get_field] over the lookups. *)
Fixpoint follow (obj : string) (lookups : list lookup) (pending : option exn)
  : result string :=
  match lookups with
  | [] => match pending with Some e => Raise e | None => Ok obj end
  | Attribute _ :: _ => Raise Unsupported
  | Item k :: rest =>
      match getitem obj k with
      | Ok obj => follow obj rest pending
      | Raise e => Raise e
      end
  end.

(** [get_field]: the value a field name stands for, and the key of its
    first part. *)
Definition get_field (field_name : string) (kwargs : gmap string string)
  : result (string * key) :=
  let '(first, rest) := field_name_split field_name in
  match to_key first with
  | Raise e => Raise e
  | Ok k =>
      match get_value k kwargs with
      | Raise e => Raise e
      | Ok obj =>
          let '(lookups, pending) := lookups_from Rest rest in
          match follow obj lookups pending with
          | Raise e => Raise e
          | Ok obj => Ok (obj, k)
          end
      end
  end.

(** [convert_field] *)
Definition convert_field (value : string) (conversion : option ascii)
  : result string :=
  match conversion with
  | None => Ok value
  | Some c =>
      if bool_decide (c = "s"%char) then Ok value
      else if bool_decide (c = "r"%char \/ c = "a"%char) then Raise Unsupported
      else Raise (ValueError ("Unknown conversion specifier " ++ String c ""))
  end.

(** [format_field]: [format(value, format_spec)]. *)
Definition format_field (value format_spec : string) : result string :=
  match format_spec with
  | EmptyString => Ok value
  | _ => Raise Unsupported
  end.

(** [auto_arg_index]: a count, or [None] for [False]. *)
Definition numbering : Type := option nat.

Definition switch : exn :=
  ValueError "cannot switch from manual field specification to automatic field numbering".

(** The name under which a field is looked up, and the numbering after
    it: an empty name is given the next position. *)
Definition number (field_name : string) (auto_arg_index : numbering)
  : result (string * numbering) :=
  match field_name with
  | EmptyString =>
      match auto_arg_index with
      | None => Raise switch
      | Some n => Ok (pretty n, Some (S n))
      end
  | _ =>
      if isdigit field_name then
        match auto_arg_index with
        | Some (S _) => Raise switch
        | _ => Ok (field_name, None)
        end
      else Ok (field_name, auto_arg_index)
  end.

Definition add_used (arg_used : key) (used_args : gset string) : gset string :=
  match arg_used with
  | Keyword name => {[name]} ∪ used_args
  | Position _ => used_args
  end.

(** The loop of [_vformat] over what the iterator yields: the pieces of
    the result in order, the names used and the numbering.  [expand] is
    [_vformat] one level further down, for the format specification of a
    field. *)
Fixpoint render
    (expand : string -> gset string -> numbering
              -> result (string * gset string * numbering))
    (kwargs : gmap string string) (items : list item) (pending : option exn)
    (used_args : gset string) (auto_arg_index : numbering)
  : result (list string * gset string * numbering) :=
  match items with
  | [] =>
      match pending with
      | Some e => Raise e
      | None => Ok ([], used_args, auto_arg_index)
      end
  | Literal t :: rest =>
      match render expand kwargs rest pending used_args auto_arg_index with
      | Ok (pieces, used_args, auto_arg_index) =>
          Ok (t :: pieces, used_args, auto_arg_index)
      | Raise e => Raise e
      end
  | Field field_name format_spec conversion :: rest =>
      match number field_name auto_arg_index with
      | Raise e => Raise e
      | Ok (field_name, auto_arg_index) =>
          match get_field field_name kwargs with
          | Raise e => Raise e
          | Ok (obj, arg_used) =>
              match convert_field obj conversion with
              | Raise e => Raise e
              | Ok obj =>
                  match
                    expand format_spec (add_used arg_used used_args)
                      auto_arg_index
                  with
                  | Raise e => Raise e
                  | Ok (format_spec, used_args, auto_arg_index) =>
                      match format_field obj format_spec with
                      | Raise e => Raise e
                      | Ok text =>
                          match
                            render expand kwargs rest pending used_args
                              auto_arg_index
                          with
                          | Ok (pieces, used_args, auto_arg_index) =>
                              Ok (text :: pieces, used_args, auto_arg_index)
                          | Raise e => Raise e
                          end
                      end
                  end
              end
          end
      end
  end.

(** [_vformat]; [levels] is [recursion_depth + 1]. *)
Fixpoint _vformat (levels : nat) (format_string : string)
    (kwargs : gmap string string) (used_args : gset string)
    (auto_arg_index : numbering)
  : result (string * gset string * numbering) :=
  match levels with
  | 0 => Raise (ValueError "Max string recursion exceeded")
  | S levels =>
      let '(items, pending) := parse format_string in
      match
        render (fun format_spec => _vformat levels format_spec kwargs) kwargs
          items pending used_args auto_arg_index
      with
      | Ok (pieces, used_args, auto_arg_index) =>
          Ok (join "" pieces, used_args, auto_arg_index)
      | Raise e => Raise e
      end
  end.

(** [StrictFormatter.check_unused_args]. *)
Definition check_unused_args (used : gset string)
    (kwargs : gmap string string) : result unit :=
  let extra := dom kwargs ∖ used in
  if bool_decide (extra = ∅) then Ok tt else Raise (KeyError_extra extra).

(** [StrictFormatter.format]: [vformat] without positional arguments:
    substitute, then refuse unused arguments. *)
Definition format (format_string : string) (kwargs : gmap string string)
  : result string :=
  match _vformat 3 format_string kwargs ∅ (Some 0) with
  | Raise e => Raise e
  | Ok (text, used_args, _) =>
      match check_unused_args used_args kwargs with
      | Ok _ => Ok text
      | Raise e => Raise e
      end
  end.

(** [StrictFormatter.validate_input_variables]. *)
Definition validate_input_variables (format_string : string)
    (input_variables : list string) : result string :=
  format format_string
    (gset_to_gmap "foo" (list_to_set input_variables)).

End Formatter.

(** ** What rendering is to produce *)











(** ** Library objects the scripts build *)

(** A Python [dict] from strings to strings: chain inputs and outputs,
    keyword arguments of a template, few-shot examples. *)
Abbreviation dict := (gmap string string).

Definition nl : string := String (ascii_of_nat 10) "".

(** [{k: d[k] for k in keys}]: raises [KeyError] at the first absent key. *)
Fixpoint select (keys : list string) (d : dict) : result dict :=
  match keys with
  | [] => Ok ∅
  | k :: rest =>
      match d !! k with
      | None => Raise (KeyError k)
      | Some v =>
          match select rest d with
          | Ok d' => Ok (<[k := v]> d')
          | Raise e => Raise e
          end
      end
  end.

(** [check_valid_template]: the formatter's [KeyError] becomes the
    [ValueError] of an invalid prompt schema; anything else passes. *)
Definition check_valid_template (template : string)
    (input_variables : list string) : result unit :=
  match Formatter.validate_input_variables template input_variables with
  | Ok _ => Ok tt
  | Raise (KeyError _) | Raise (KeyError_extra _) =>
      Raise (ValueError "Invalid prompt schema; check for mismatched or missing input parameters.")
  | Raise e => Raise e
  end.

Module PromptTemplate.

Record t : Type := mk { input_variables : list string; template : string }.

(** The root validator [template_is_valid], run when the object is
    built: the template is rendered once with dummy values. *)
Definition template_is_valid (p : t) : result unit :=
  check_valid_template (template p) (input_variables p).

(** [PromptTemplate(input_variables=..., template=...)] *)
Definition new (input_variables : list string) (template : string)
  : result t :=
  match template_is_valid (mk input_variables template) with
  | Ok _ => Ok (mk input_variables template)
  | Raise e => Raise e
  end.

Definition format (p : t) (kwargs : dict) : result string :=
  Formatter.format (template p) kwargs.

End PromptTemplate.

Module FewShotPromptTemplate.

Record t : Type := mk {
  examples : list dict;
  example_prompt : PromptTemplate.t;
  prefix : string;
  suffix : string;
  input_variables : list string;
  example_separator : string
}.

(** The root validator [template_is_valid]: prefix and suffix together
    must use exactly the declared variables. *)
Definition template_is_valid (p : t) : result unit :=
  check_valid_template (prefix p ++ suffix p) (input_variables p).

(** Every example is cut down to the variables the example prompt
    declares, [{k: e[k] for k in example_prompt.input_variables}]. *)
Fixpoint select_all (keys : list string) (es : list dict)
  : result (list dict) :=
  match es with
  | [] => Ok []
  | e :: rest =>
      match select keys e with
      | Raise x => Raise x
      | Ok e' =>
          match select_all keys rest with
          | Ok es' => Ok (e' :: es')
          | Raise x => Raise x
          end
      end
  end.

(** Every example, cut down, is rendered by the example prompt. *)
Fixpoint format_all (example_prompt : PromptTemplate.t) (es : list dict)
  : result (list string) :=
  match es with
  | [] => Ok []
  | e :: rest =>
      match PromptTemplate.format example_prompt e with
      | Raise x => Raise x
      | Ok s =>
          match format_all example_prompt rest with
          | Ok ss => Ok (s :: ss)
          | Raise x => Raise x
          end
      end
  end.

Definition format_examples (p : t) (es : list dict) : result (list string) :=
  match select_all (PromptTemplate.input_variables (example_prompt p)) es with
  | Raise x => Raise x
  | Ok es' => format_all (example_prompt p) es'
  end.

Definition nonempty (s : string) : bool :=
  match s with EmptyString => false | _ => true end.

(** [format]: prefix, rendered examples and suffix, the empty ones
    dropped, are joined by the separator into one template, and that
    template is rendered with the arguments of the call. *)
Definition format (p : t) (kwargs : dict) : result string :=
  match format_examples p (examples p) with
  | Raise x => Raise x
  | Ok example_strings =>
      let pieces := prefix p :: example_strings ++ [suffix p] in
      let template := join (example_separator p) (filter nonempty pieces) in
      Formatter.format template kwargs
  end.

End FewShotPromptTemplate.

(** The two kinds of prompt a chain is given in the scripts. *)
Inductive BasePromptTemplate : Type :=
  | Prompt (p : PromptTemplate.t)
  | FewShot (p : FewShotPromptTemplate.t).

Definition prompt_input_variables (p : BasePromptTemplate) : list string :=
  match p with
  | Prompt p => PromptTemplate.input_variables p
  | FewShot p => FewShotPromptTemplate.input_variables p
  end.

Definition prompt_format (p : BasePromptTemplate) (kwargs : dict)
  : result string :=
  match p with
  | Prompt p => PromptTemplate.format p kwargs
  | FewShot p => FewShotPromptTemplate.format p kwargs
  end.

(** [OpenAI(temperature=...)]: the client object; only its sampling
    temperature is set by the scripts. *)
Module OpenAI.
Record t : Type := mk { temperature : Q }.
End OpenAI.

(** One completion request as it leaves the process. *)
Record request : Type := Request { prompt : string; temperature : Q }.

(** [ConversationBufferMemory]: the object holds the address of its
    buffer in the heap of the running script, so that the chain that
    writes it and the script that reads it share one buffer.  A buffer
    is the list of (input, output) exchanges saved so far: [save_context]
    adds the human and the AI message of one exchange together. *)
Module ConversationBufferMemory.

Record t : Type := mk {
  chat_memory : nat;
  input_key : option string;
  output_key : option string;
  memory_key : string
}.

Definition memory_variables (m : t) : list string := [memory_key m].

(** [get_buffer_string] *)
Definition exchange_string (e : string * string) : list string :=
  ["Human: " ++ e.1; "AI: " ++ e.2].

Definition get_buffer_string (b : list (string * string)) : string :=
  join nl (concat (map exchange_string b)).

End ConversationBufferMemory.

Module LLMChain.

Record t : Type := mk {
  llm : OpenAI.t;
  prompt : BasePromptTemplate;
  output_key : string;
  memory : option ConversationBufferMemory.t
}.

Definition input_keys (c : t) : list string := prompt_input_variables (prompt c).
Definition output_keys (c : t) : list string := [output_key c].

End LLMChain.

Module SequentialChain.

Record t : Type := mk {
  chains : list LLMChain.t;
  input_variables : list string;
  output_variables : list string
}.

Definition memory_variables (c : LLMChain.t) : gset string :=
  match LLMChain.memory c with
  | Some m => list_to_set (ConversationBufferMemory.memory_variables m)
  | None => ∅
  end.

(** [validate_chains]: every chain finds its input keys among the
    variables known so far (its own memory variables apart) and adds
    output keys that are new. *)
Fixpoint validate_from (known : gset string) (cs : list LLMChain.t)
  : result (gset string) :=
  match cs with
  | [] => Ok known
  | c :: rest =>
      let missing_vars :=
        (list_to_set (LLMChain.input_keys c) ∖ known) ∖ memory_variables c in
      if bool_decide (missing_vars ≠ ∅)
      then Raise (ValueError "Missing required input keys")
      else
        let overlapping_keys := known ∩ list_to_set (LLMChain.output_keys c) in
        if bool_decide (overlapping_keys ≠ ∅)
        then Raise (ValueError "Chain returned keys that already exist")
        else validate_from (known ∪ list_to_set (LLMChain.output_keys c)) rest
  end.

Definition validate_chains (p : t) : result unit :=
  match validate_from (list_to_set (input_variables p)) (chains p) with
  | Raise e => Raise e
  | Ok known =>
      if bool_decide
           (list_to_set (output_variables p) ∖ known ≠ (∅ : gset string))
      then Raise (ValueError "Expected output variables that were not found")
      else Ok tt
  end.

Definition input_keys (c : t) : list string := input_variables c.
Definition output_keys (c : t) : list string := output_variables c.

End SequentialChain.

(** ** The running script: requests sent, things shown, buffers held *)

Inductive value : Type :=
  | Str (s : string)
  | Dict (d : dict).

(** What the script has put on the page ([st.*]) or on standard output
    ([print]), in order. *)
Inductive event : Type :=
  | st_title (body : string)
  | st_text_input (label : string)
  | st_write (v : value)
  | st_expander (label : string)
  | st_info (body : string)
  | print (v : value).

Record state : Type := State {
  requests : list request;
  screen : list event;
  heap : gmap nat (list (string * string))
}.

Definition initial : state := State [] [] ∅.

Definition buffer (s : state) (m : ConversationBufferMemory.t)
  : list (string * string) :=
  default [] (heap s !! ConversationBufferMemory.chat_memory m).

(** A statement either returns or raises, and leaves a state behind in
    both cases: what a raising call has already sent or saved stays. *)
Definition M (A : Type) : Type := state -> result A * state.

Definition ret {A} (a : A) : M A := fun s => (Ok a, s).
Definition raise {A} (e : exn) : M A := fun s => (Raise e, s).
Definition lift {A} (r : result A) : M A := fun s => (r, s).
Definition bind {A B} (m : M A) (k : A -> M B) : M B :=
  fun s =>
    match m s with
    | (Ok a, s') => k a s'
    | (Raise e, s') => (Raise e, s')
    end.

Declare Scope py_scope.
Delimit Scope py_scope with py.
Notation "x <- m ;; k" := (bind m (fun x => k))
  (at level 100, m at next level, right associativity) : py_scope.
Notation "m ;; k" := (bind m (fun _ => k))
  (at level 100, right associativity) : py_scope.
Local Open Scope py_scope.

Definition show (e : event) : M unit :=
  fun s => (Ok tt, State (requests s) (screen s ++ [e]) (heap s)).

(** Python's truth value of a string. *)
Definition truthy (s : string) : bool :=
  match s with EmptyString => false | String _ _ => true end.

Module Memory.
Import ConversationBufferMemory.

(** [load_memory_variables]: the buffer, as text, under the memory key. *)
Definition load_memory_variables (m : t) : M dict :=
  fun s => (Ok {[ memory_key m := get_buffer_string (buffer s m) ]}, s).

(** [get_prompt_input_key]: the one input that is not a memory variable. *)
Definition get_prompt_input_key (inputs : dict) (m : t) : result string :=
  match elements (dom inputs ∖ list_to_set (memory_variables m ++ ["stop"])) with
  | [k] => Ok k
  | _ => Raise (ValueError "One input key expected")
  end.

(** [_get_input_output] *)
Definition _get_input_output (m : t) (inputs outputs : dict)
  : result (string * string) :=
  match
    match input_key m with
    | None => get_prompt_input_key inputs m
    | Some k => Ok k
    end
  with
  | Raise e => Raise e
  | Ok prompt_input_key =>
      match
        match output_key m with
        | None =>
            match elements (dom outputs) with
            | [k] => Ok k
            | _ => Raise (ValueError "One output key expected")
            end
        | Some k => Ok k
        end
      with
      | Raise e => Raise e
      | Ok out_key =>
          match inputs !! prompt_input_key with
          | None => Raise (KeyError prompt_input_key)
          | Some i =>
              match outputs !! out_key with
              | None => Raise (KeyError out_key)
              | Some o => Ok (i, o)
              end
          end
      end
  end.

(** [ConversationBufferMemory(...)]: a new, empty buffer. *)
Definition new (m : t) : M unit :=
  fun s =>
    (Ok tt, State (requests s) (screen s) (<[chat_memory m := []]> (heap s))).

(** [save_context]: one more exchange at the end of the buffer. *)
Definition save_context (m : t) (inputs outputs : dict) : M unit :=
  io <- lift (_get_input_output m inputs outputs) ;;
  fun s =>
    (Ok tt,
     State (requests s) (screen s)
       (<[chat_memory m := (buffer s m ++ [io])%list]> (heap s))).

End Memory.

(** [Chain.prep_inputs]: a bare string becomes the value of the one input
    key, the memory variables are added, the input keys are checked. *)
Definition prep_inputs (input_keys : list string)
    (memory : option ConversationBufferMemory.t) (inputs : value) : M dict :=
  inputs <-
    match inputs with
    | Dict d => ret d
    | Str s =>
        let memory_variables :=
          match memory with
          | Some m => ConversationBufferMemory.memory_variables m
          | None => []
          end in
        match elements (list_to_set input_keys ∖ list_to_set memory_variables
                          : gset string) with
        | [k] => ret ({[ k := s ]} : dict)
        | _ => raise (ValueError "A single string input was passed in, but this chain expects multiple inputs")
        end
    end ;;
  inputs <-
    match memory with
    | Some m =>
        external_context <- Memory.load_memory_variables m ;;
        ret (external_context ∪ inputs)
    | None => ret inputs
    end ;;
  if bool_decide (list_to_set input_keys ∖ dom inputs ≠ (∅ : gset string))
  then raise (ValueError "Missing some input keys")
  else ret inputs.

(** [Chain.prep_outputs]: the outputs are checked and saved to memory;
    the caller gets them alone, or on top of the inputs. *)
Definition prep_outputs (output_keys : list string)
    (memory : option ConversationBufferMemory.t) (inputs outputs : dict)
    (return_only_outputs : bool) : M dict :=
  (if bool_decide (list_to_set output_keys ∖ dom outputs ≠ (∅ : gset string))
   then raise (ValueError "Missing some output keys")
   else ret tt) ;;
  match memory with
  | Some m => Memory.save_context m inputs outputs
  | None => ret tt
  end ;;
  ret (if return_only_outputs then outputs else outputs ∪ inputs).

(** [Chain.__call__] around the [_call] of a concrete chain. *)
Definition Chain__call__ (input_keys output_keys : list string)
    (memory : option ConversationBufferMemory.t) (_call : dict -> M dict)
    (inputs : value) (return_only_outputs : bool) : M dict :=
  inputs <- prep_inputs input_keys memory inputs ;;
  outputs <- _call inputs ;;
  prep_outputs output_keys memory inputs outputs return_only_outputs.

(** The hosted model: what it answers to a request, given the requests
    it has seen before, or the message of the error the client raises
    instead.  Nothing is assumed of it. *)
Class Model : Type :=
  completion : list request -> request -> string + string.

Section Chains.

Context {model : Model}.

(** [llm(prompt)]: one request, with the temperature of the client. *)
Definition OpenAI__call__ (llm : OpenAI.t) (text : string) : M string :=
  fun s =>
    let r := Request text (OpenAI.temperature llm) in
    let s' := State (requests s ++ [r]) (screen s) (heap s) in
    match completion (requests s) r with
    | inl answer => (Ok answer, s')
    | inr msg => (Raise (APIError msg), s')
    end.

(** [LLMChain._call]: the prompt is rendered from the inputs it
    declares, sent, and the answer returned under the output key. *)
Definition LLMChain_call (c : LLMChain.t) (inputs : dict) : M dict :=
  selected_inputs <- lift (select (LLMChain.input_keys c) inputs) ;;
  text <- lift (prompt_format (LLMChain.prompt c) selected_inputs) ;;
  answer <- OpenAI__call__ (LLMChain.llm c) text ;;
  ret ({[ LLMChain.output_key c := answer ]} : dict).

Definition LLMChain__call__ (c : LLMChain.t) (inputs : value)
    (return_only_outputs : bool) : M dict :=
  Chain__call__ (LLMChain.input_keys c) (LLMChain.output_keys c)
    (LLMChain.memory c) (LLMChain_call c) inputs return_only_outputs.

(** [Chain.run] with one positional argument. *)
Definition LLMChain_run (c : LLMChain.t) (arg : value) : M string :=
  d <- LLMChain__call__ c arg false ;;
  match d !! LLMChain.output_key c with
  | Some v => ret v
  | None => raise (KeyError (LLMChain.output_key c))
  end.

(** The loop of [SequentialChain._call]. *)
Fixpoint run_chains (cs : list LLMChain.t) (known_values : dict) : M dict :=
  match cs with
  | [] => ret known_values
  | c :: rest =>
      outputs <- LLMChain__call__ c (Dict known_values) true ;;
      run_chains rest (outputs ∪ known_values)
  end.

Definition SequentialChain_call (c : SequentialChain.t) (inputs : dict)
  : M dict :=
  known_values <- run_chains (SequentialChain.chains c) inputs ;;
  lift (select (SequentialChain.output_variables c) known_values).

Definition SequentialChain__call__ (c : SequentialChain.t) (inputs : value)
  : M dict :=
  Chain__call__ (SequentialChain.input_keys c) (SequentialChain.output_keys c)
    None (SequentialChain_call c) inputs false.

End Chains.

(** ** What one call of a chain with memory amounts to *)

Section Stage.

Context {model : Model}.

(** The state once [text] has been sent with temperature [t]. *)
Definition sent (s : state) (text : string) (t : Q) : state :=
  State (requests s ++ [Request text t]) (screen s) (heap s).

(** The state once [e] has been shown. *)
Definition shown (s : state) (e : event) : state :=
  State (requests s) (screen s ++ [e]) (heap s).

(** The state once the exchange [io] has been saved to [m]. *)
Definition saved (s : state) (m : ConversationBufferMemory.t)
    (io : string * string) : state :=
  State (requests s) (screen s)
    (<[ConversationBufferMemory.chat_memory m := (buffer s m ++ [io])%list]>
       (heap s)).

(** One stage: the prompt [text] made from the input [x] is sent; an
    answer is saved with [x] to the buffer [m] and returned under the
    output key, an error is raised as it is. *)
Definition stage (c : LLMChain.t) (m : ConversationBufferMemory.t)
    (text x : string) (s : state) : result dict * state :=
  let t := OpenAI.temperature (LLMChain.llm c) in
  match completion (requests s) (Request text t) with
  | inl a =>
      (Ok ({[ LLMChain.output_key c := a ]} : dict),
       saved (sent s text t) m (x, a))
  | inr msg => (Raise (APIError msg), sent s text t)
  end.

(** One call of a chain without memory: the prompt [text] is sent; an
    answer comes back under the output key, alone or on top of the
    inputs, an error is raised as it is. *)
Definition plain_stage (c : LLMChain.t) (inputs : dict) (text : string)
    (return_only_outputs : bool) (s : state) : result dict * state :=
  let t := OpenAI.temperature (LLMChain.llm c) in
  match completion (requests s) (Request text t) with
  | inl a =>
      let outputs : dict := {[ LLMChain.output_key c := a ]} in
      (Ok (if return_only_outputs then outputs else outputs ∪ inputs),
       sent s text t)
  | inr msg => (Raise (APIError msg), sent s text t)
  end.

(** An exception that is the error of the last request sent, as the
    client raised it. *)
Definition raised_by_last_request (e : exn) (s : state) : Prop :=
  exists seen r msg,
    requests s = (seen ++ [r])%list /\ completion seen r = inr msg
    /\ e = APIError msg.

(** No error of the client is caught or changed in a run: whichever
    request of the run it is that fails, it is the last request the run
    sends, and the run ends with its error. *)
Definition uncaught {A} (run : M A) : Prop :=
  forall (s : state) (before : list request) (r : request)
         (after : list request) (msg : string),
    requests (run s).2 = (requests s ++ before ++ r :: after)%list ->
    completion (requests s ++ before) r = inr msg ->
    after = [] /\ (run s).1 = Raise (APIError msg).

End Stage.

(** ** [src/main.py] *)

Module main.
Section Script.

Context {model : Model}.

Definition llm : OpenAI.t := OpenAI.mk (8 # 10).

(** [input_text] is what [st.text_input] returns on this run of the
    script: the text in the box, empty until the user types. *)
Definition script (input_text : string) : M unit :=
  show (st_title "Search Your Topic :mag: ") ;;
  show (st_text_input "Enter your topic") ;;
  if truthy input_text then
    answer <- OpenAI__call__ llm input_text ;;
    show (st_write (Str answer))
  else ret tt.

End Script.
End main.

(** ** [src/Simplechain.py] *)

Module Simplechain.
Section Script.

Context {model : Model}.

Definition l : OpenAI.t := OpenAI.mk (8 # 10).

Definition first_input : PromptTemplate.t :=
  PromptTemplate.mk ["name"] "Tell me about {name}".

Definition person_memory : ConversationBufferMemory.t :=
  ConversationBufferMemory.mk 0 (Some "name") None "person_history".

Definition chain : LLMChain.t :=
  LLMChain.mk l (Prompt first_input) "person" (Some person_memory).

Definition second_input : PromptTemplate.t :=
  PromptTemplate.mk ["person"] "When was {person} born".

Definition dob_memory : ConversationBufferMemory.t :=
  ConversationBufferMemory.mk 1 (Some "person") None "dob_history".

Definition chain2 : LLMChain.t :=
  LLMChain.mk l (Prompt second_input) "dob" (Some dob_memory).

Definition third_input : PromptTemplate.t :=
  PromptTemplate.mk ["dob"] "Mention five major event in this {dob}".

Definition desc_memory : ConversationBufferMemory.t :=
  ConversationBufferMemory.mk 2 (Some "dob") None "desc_history".

Definition chain3 : LLMChain.t :=
  LLMChain.mk l (Prompt third_input) "description" (Some desc_memory).

Definition parent_chain : SequentialChain.t :=
  SequentialChain.mk [chain; chain2; chain3] ["name"]
    ["person"; "dob"; "description"].

(** The module-level statements up to [parent_chain=...]: every object
    is built, which runs its validator or allocates its buffer. *)
Definition setup : M unit :=
  show (st_title "Search your Topic") ;;
  show (st_text_input "Enter your topic") ;;
  lift (PromptTemplate.template_is_valid first_input) ;;
  Memory.new person_memory ;;
  lift (PromptTemplate.template_is_valid second_input) ;;
  Memory.new dob_memory ;;
  lift (PromptTemplate.template_is_valid third_input) ;;
  Memory.new desc_memory ;;
  lift (SequentialChain.validate_chains parent_chain).

Definition buffer_text (m : ConversationBufferMemory.t) : M string :=
  fun s => (Ok (ConversationBufferMemory.get_buffer_string (buffer s m)), s).

Definition script (input_text : string) : M unit :=
  setup ;;
  if truthy input_text then
    r <- SequentialChain__call__ parent_chain (Str input_text) ;;
    show (st_write (Dict r)) ;;
    show (st_expander "Person Name") ;;
    b <- buffer_text person_memory ;;
    show (st_info b) ;;
    show (st_expander "Major Events") ;;
    b <- buffer_text desc_memory ;;
    show (st_info b)
  else ret tt.

(** What a call [parent_chain(x)] amounts to, request by request. *)
Definition pipeline (x : string) (s : state) : result dict * state :=
  let t := (8 # 10)%Q in
  let q1 := "Tell me about " ++ x in
  match completion (requests s) (Request q1 t) with
  | inr msg => (Raise (APIError msg), sent s q1 t)
  | inl a1 =>
      let s1 := saved (sent s q1 t) person_memory (x, a1) in
      let q2 := "When was " ++ a1 ++ " born" in
      match completion (requests s1) (Request q2 t) with
      | inr msg => (Raise (APIError msg), sent s1 q2 t)
      | inl a2 =>
          let s2 := saved (sent s1 q2 t) dob_memory (a1, a2) in
          let q3 := "Mention five major event in this " ++ a2 in
          match completion (requests s2) (Request q3 t) with
          | inr msg => (Raise (APIError msg), sent s2 q3 t)
          | inl a3 =>
              (Ok ({[ "name" := x; "person" := a1; "dob" := a2;
                      "description" := a3 ]} : dict),
               saved (sent s2 q3 t) desc_memory (a2, a3))
          end
      end
  end.

Definition memories : list ConversationBufferMemory.t :=
  [person_memory; dob_memory; desc_memory].

End Script.
End Simplechain.

(** ** [src/prompt.py] *)

Module prompt.
Section Script.

Context {model : Model}.

Definition demo_tem : string :=
  " I want you to act as a financial advisor for people. In an easy way, explain the basics of {financial_concept}.".

Definition prompt : PromptTemplate.t :=
  PromptTemplate.mk ["financial_concept"] demo_tem.

Definition llm : OpenAI.t := OpenAI.mk (8 # 10).

Definition chain : LLMChain.t := LLMChain.mk llm (Prompt prompt) "text" None.

Definition template_1 : string :=
  "Translate the following sentence {sentence} into {target_language}".

Definition lang_prompt : PromptTemplate.t :=
  PromptTemplate.mk ["sentence"; "target_language"] template_1.

Definition chain2 : LLMChain.t :=
  LLMChain.mk llm (Prompt lang_prompt) "text" None.

Definition examples : list dict :=
  [ {[ "word" := "tall"; "antonym" := "short" ]};
    {[ "word" := "happy"; "antonym" := "sad" ]} ].

Definition format_template : string := "word:{word}, antonym:{antonym}".

Definition example_prompt_f : PromptTemplate.t :=
  PromptTemplate.mk ["word"; "antonym"] format_template.

Definition few_shot : FewShotPromptTemplate.t :=
  FewShotPromptTemplate.mk examples example_prompt_f
    ("Given the antonym of every input" ++ nl)
    ("word:{input}" ++ nl ++ " antonym:")
    ["input"] nl.

Definition chain3 : LLMChain.t :=
  LLMChain.mk llm (FewShot few_shot) "text" None.

(** The first demonstration, up to [print(chain.run('GDP'))]. *)
Definition single_prompt : M unit :=
  lift (PromptTemplate.template_is_valid prompt) ;;
  answer <- LLMChain_run chain (Str "GDP") ;;
  show (print (Str answer)).

Definition language_translation : M unit :=
  show (print (Str "******Language Translation**********")) ;;
  lift (PromptTemplate.template_is_valid lang_prompt) ;;
  answer <- LLMChain_run chain2
    (Dict {[ "sentence" := "Hellow, How r u"; "target_language" := "Telugu" ]}) ;;
  show (print (Str answer)).

Definition few_shot_demo : M unit :=
  show (print (Str "*******FewShotPromptTemplate*******")) ;;
  lift (PromptTemplate.template_is_valid example_prompt_f) ;;
  lift (FewShotPromptTemplate.template_is_valid few_shot) ;;
  text <- lift (FewShotPromptTemplate.format few_shot {[ "input" := "big" ]}) ;;
  show (print (Str text)) ;;
  d <- LLMChain__call__ chain3 (Dict {[ "input" := "big" ]}) false ;;
  show (print (Dict d)) ;;
  answer <- LLMChain_run chain3 (Str "big") ;;
  show (print (Str answer)).

Definition script : M unit :=
  single_prompt ;; language_translation ;; few_shot_demo.

(** The three prompts the script sends. *)
Definition gdp_text : string :=
  " I want you to act as a financial advisor for people. In an easy way, explain the basics of GDP.".

Definition translation_text : string :=
  "Translate the following sentence Hellow, How r u into Telugu".

Definition few_shot_text : string :=
  join nl [ "Given the antonym of every input"; "";
            "word:tall, antonym:short"; "word:happy, antonym:sad";
            "word:big"; " antonym:" ].

(** What [single_prompt] amounts to. *)
Definition single_prompt_behaviour (s : state) : result unit * state :=
  let t := (8 # 10)%Q in
  match completion (requests s) (Request gdp_text t) with
  | inr msg => (Raise (APIError msg), sent s gdp_text t)
  | inl a => (Ok tt, shown (sent s gdp_text t) (print (Str a)))
  end.

(** What the whole script amounts to, request by request. *)
Definition behaviour (s : state) : result unit * state :=
  let t := (8 # 10)%Q in
  match single_prompt_behaviour s with
  | (Raise e, s1) => (Raise e, s1)
  | (Ok _, s1) =>
      let s1 := shown s1 (print (Str "******Language Translation**********")) in
      match completion (requests s1) (Request translation_text t) with
      | inr msg => (Raise (APIError msg), sent s1 translation_text t)
      | inl a2 =>
          let s2 :=
            shown
              (shown (shown (sent s1 translation_text t) (print (Str a2)))
                 (print (Str "*******FewShotPromptTemplate*******")))
              (print (Str few_shot_text)) in
          match completion (requests s2) (Request few_shot_text t) with
          | inr msg => (Raise (APIError msg), sent s2 few_shot_text t)
          | inl a3 =>
              let s3 :=
                shown (sent s2 few_shot_text t)
                  (print (Dict {[ "text" := a3; "input" := "big" ]})) in
              match completion (requests s3) (Request few_shot_text t) with
              | inr msg => (Raise (APIError msg), sent s3 few_shot_text t)
              | inl a4 =>
                  (Ok tt, shown (sent s3 few_shot_text t) (print (Str a4)))
              end
          end
      end
  end.

End Script.
End prompt.

(** ** Models used to run the scripts *)

(** A model that answers every request with the prompt in brackets. *)
Definition echo : Model :=
  fun seen r => inl ("<" ++ prompt r ++ ">").

(** A model whose client fails on request number [n] (from 0). *)
Definition failing_at (n : nat) : Model :=
  fun seen r =>
    if bool_decide (length seen = n) then inr "rate limit" else echo seen r.


(** * Properties *)

(** ** The renderer on the templates of the scripts *)

Example parse_first_input :
  Formatter.parse "Tell me about {name}"
  = ([Formatter.Literal "Tell me about "; Formatter.Field "name" "" None],
     None).
Proof. vm_compute. reflexivity. Qed.

Example format_first_input :
  Formatter.format "Tell me about {name}" {[ "name" := "Albert Einstein" ]}
  = Ok "Tell me about Albert Einstein".
Proof. vm_compute. reflexivity. Qed.

Example format_escaped_braces :
  Formatter.format "{{{a}}}" {[ "a" := "x" ]} = Ok "{x}".
Proof. vm_compute. reflexivity. Qed.

Example format_positional :
  Formatter.format "{} and {0}" ∅ = Raise IndexError.
Proof. vm_compute. reflexivity. Qed.

Example parse_markup :
  Formatter.parse "ab{c!r:x{y}z}d{{e}}{f[0].g}"
  = ([Formatter.Literal "ab"; Formatter.Field "c" "x{y}z" (Some "r"%char);
      Formatter.Literal "d{e}"; Formatter.Field "f[0].g" "" None], None).
Proof. vm_compute. reflexivity. Qed.

Example format_index :
  Formatter.format "{a[1]}{a[0]}{a!s}" {[ "a" := "xy" ]} = Ok "yxxy".
Proof. vm_compute. reflexivity. Qed.

Example format_index_out_of_range :
  Formatter.format "{a[2]}" {[ "a" := "xy" ]} = Raise IndexError.
Proof. vm_compute. reflexivity. Qed.

Example format_index_not_a_number :
  Formatter.format "{a[x]}" {[ "a" := "xy" ]} = Raise TypeError.
Proof. vm_compute. reflexivity. Qed.

Example format_nested_specification :
  Formatter.format "{a:{b}}" {[ "a" := "x"; "b" := "" ]} = Ok "x"
  /\ Formatter.format "{a:{b:{c}}}" {[ "a" := "x"; "b" := ""; "c" := "" ]}
     = Raise (ValueError "Max string recursion exceeded").
Proof. split; vm_compute; reflexivity. Qed.

Example format_malformed :
  Formatter.format "{a}{b" {[ "a" := "x" ]}
  = Raise (ValueError "expected '}' before end of string")
  /\ Formatter.format "{c}{b" {[ "a" := "x" ]} = Raise (KeyError "c")
  /\ Formatter.format "{a!x}" {[ "a" := "x" ]}
     = Raise (ValueError "Unknown conversion specifier x")
  /\ Formatter.format "{a.}" {[ "a" := "x" ]}
     = Raise (ValueError "Empty attribute in format string").
Proof. repeat split; vm_compute; reflexivity. Qed.

(** ** Evaluation lemmas for the monad and the chains *)

Lemma bind_eq {A B} (m : M A) (k : A -> M B) s :
  bind m k s
  = match m s with
    | (Ok a, s') => k a s'
    | (Raise e, s') => (Raise e, s')
    end.
Proof. reflexivity. Qed.

Lemma select_singleton (v x : string) (d : dict) :
  d !! v = Some x -> select [v] d = Ok ({[ v := x ]} : dict).
Proof. intros Hv. simpl. rewrite Hv, insert_empty. reflexivity. Qed.

Lemma single_output_present (k a : string) :
  list_to_set [k] ∖ dom ({[ k := a ]} : dict) = (∅ : gset string).
Proof.
  rewrite dom_singleton_L. apply set_eq. intros k0.
  rewrite elem_of_difference, elem_of_list_to_set, list_elem_of_singleton,
    elem_of_singleton, elem_of_empty.
  tauto.
Qed.

Lemma buffer_sent s text t m : buffer (sent s text t) m = buffer s m.
Proof. reflexivity. Qed.

Lemma buffer_shown s e m : buffer (shown s e) m = buffer s m.
Proof. reflexivity. Qed.

Lemma buffer_saved_eq s m io : buffer (saved s m io) m = (buffer s m ++ [io])%list.
Proof. unfold buffer at 1. simpl. rewrite lookup_insert_eq. reflexivity. Qed.

Lemma buffer_saved_ne s m m' io :
  ConversationBufferMemory.chat_memory m ≠ ConversationBufferMemory.chat_memory m' ->
  buffer (saved s m io) m' = buffer s m'.
Proof.
  intros Hne. unfold buffer. simpl. rewrite lookup_insert_ne by exact Hne.
  reflexivity.
Qed.

Lemma requests_sent s text t :
  requests (sent s text t) = (requests s ++ [Request text t])%list.
Proof. reflexivity. Qed.

Lemma requests_saved s m io : requests (saved s m io) = requests s.
Proof. reflexivity. Qed.

Lemma requests_shown s e : requests (shown s e) = requests s.
Proof. reflexivity. Qed.

(** Case analysis on the answer to the next request of the goal. *)
Ltac next_request a msg H :=
  match goal with
  | |- context [match completion ?seen ?r with _ => _ end] =>
      destruct (completion seen r) as [a|msg] eqn:H
  end.

Section StageLemmas.

Context {model : Model}.

Lemma run_chains_cons c rest kv :
  run_chains (c :: rest) kv
  = bind (LLMChain__call__ c (Dict kv) true)
      (fun outputs => run_chains rest (outputs ∪ kv)).
Proof. reflexivity. Qed.

(** A chain with memory and a one-variable prompt is one [stage]. *)
Lemma LLMChain_stage (c : LLMChain.t) p m v x text (known : dict) s :
  LLMChain.prompt c = Prompt p ->
  PromptTemplate.input_variables p = [v] ->
  LLMChain.memory c = Some m ->
  ConversationBufferMemory.input_key m = Some v ->
  ConversationBufferMemory.output_key m = None ->
  ConversationBufferMemory.memory_key m ≠ v ->
  known !! v = Some x ->
  PromptTemplate.format p {[ v := x ]} = Ok text ->
  LLMChain__call__ c (Dict known) true s = stage c m text x s.
Proof.
  intros Hp Hv Hm Hik Hok Hne Hx Hf.
  unfold LLMChain__call__, Chain__call__, LLMChain.input_keys,
    LLMChain.output_keys, prompt_input_variables.
  rewrite Hp, Hv, Hm.
  unfold prep_inputs, bind, ret, raise, Memory.load_memory_variables. simpl.
  set (ext := ({[ConversationBufferMemory.memory_key m :=
                 ConversationBufferMemory.get_buffer_string (buffer s m)]} : dict)).
  assert (Hlk : (ext ∪ known) !! v = Some x).
  { apply lookup_union_Some_raw. right. split; [|exact Hx].
    unfold ext. apply lookup_singleton_ne. exact Hne. }
  assert (Hval : list_to_set [v] ∖ dom (ext ∪ known) = (∅ : gset string)).
  { pose proof (elem_of_dom_2 _ _ _ Hlk) as Hd.
    apply set_eq. intros k.
    rewrite elem_of_difference, elem_of_list_to_set, list_elem_of_singleton,
      elem_of_empty.
    split; [intros [-> Hk]; contradiction | intros []]. }
  rewrite bool_decide_false by (intros Hc; apply Hc; exact Hval).
  unfold LLMChain_call, bind, lift, LLMChain.input_keys, prompt_input_variables.
  rewrite Hp, Hv. rewrite (select_singleton _ _ _ Hlk).
  unfold prompt_format. rewrite Hf.
  unfold OpenAI__call__, stage. simpl.
  destruct (completion (requests s) _) as [a|msg]; [|reflexivity].
  unfold ret, prep_outputs, bind, ret, raise.
  assert (Hout : forall k a0, list_to_set [k] ∖ dom ({[ k := a0 ]} : dict)
                             = (∅ : gset string)).
  { intros k a0. apply single_output_present. }
  rewrite bool_decide_false by (intros Hc; apply Hc; apply Hout).
  unfold Memory.save_context, bind, lift, Memory._get_input_output.
  rewrite Hik, Hok, Hlk. rewrite dom_singleton_L, elements_singleton.
  rewrite lookup_singleton_eq. reflexivity.
Qed.

(** A chain without memory is one [plain_stage], once its inputs are
    prepared and its prompt rendered. *)
Lemma LLMChain_plain (c : LLMChain.t) arg (inputs selected : dict) text rof s :
  LLMChain.memory c = None ->
  prep_inputs (LLMChain.input_keys c) None arg s = (Ok inputs, s) ->
  select (LLMChain.input_keys c) inputs = Ok selected ->
  prompt_format (LLMChain.prompt c) selected = Ok text ->
  LLMChain__call__ c arg rof s = plain_stage c inputs text rof s.
Proof.
  intros Hm Hprep Hsel Hf.
  unfold LLMChain__call__, Chain__call__. rewrite Hm, bind_eq, Hprep.
  unfold LLMChain_call, bind, lift. rewrite Hsel, Hf.
  unfold OpenAI__call__, plain_stage.
  destruct (completion (requests s) _) as [a|msg]; [|reflexivity].
  unfold ret, prep_outputs, LLMChain.output_keys, bind, raise, ret.
  rewrite bool_decide_false
    by (intros Hc; apply Hc; apply single_output_present).
  reflexivity.
Qed.

Lemma LLMChain_run_plain (c : LLMChain.t) arg (inputs selected : dict) text s :
  LLMChain.memory c = None ->
  prep_inputs (LLMChain.input_keys c) None arg s = (Ok inputs, s) ->
  select (LLMChain.input_keys c) inputs = Ok selected ->
  prompt_format (LLMChain.prompt c) selected = Ok text ->
  LLMChain_run c arg s
  = match completion (requests s)
            (Request text (OpenAI.temperature (LLMChain.llm c))) with
    | inl a => (Ok a, sent s text (OpenAI.temperature (LLMChain.llm c)))
    | inr msg =>
        (Raise (APIError msg),
         sent s text (OpenAI.temperature (LLMChain.llm c)))
    end.
Proof.
  intros Hm Hprep Hsel Hf. unfold LLMChain_run. rewrite bind_eq.
  rewrite (LLMChain_plain c arg inputs selected text false s Hm Hprep Hsel Hf).
  unfold plain_stage.
  destruct (completion (requests s) _) as [a|msg]; [|reflexivity].
  rewrite lookup_union_l' by (rewrite lookup_singleton_eq; eauto).
  rewrite lookup_singleton_eq. reflexivity.
Qed.

(** A stage that raises ends the loop of the sequential chain: the
    chains after it contribute nothing. *)
Lemma run_chains_raise pre c post (kv kv' : dict) s s1 e s2 :
  run_chains pre kv s = (Ok kv', s1) ->
  LLMChain__call__ c (Dict kv') true s1 = (Raise e, s2) ->
  run_chains (pre ++ c :: post) kv s = (Raise e, s2).
Proof.
  revert kv s. induction pre as [|c0 pre IH]; intros kv s Hpre Hc.
  - simpl in Hpre. unfold ret in Hpre. inversion Hpre; subst.
    simpl. rewrite bind_eq, Hc. reflexivity.
  - rewrite <- app_comm_cons, run_chains_cons, bind_eq.
    rewrite run_chains_cons, bind_eq in Hpre.
    destruct (LLMChain__call__ c0 (Dict kv) true s) as [[o|e0] s0].
    + apply IH; assumption.
    + discriminate.
Qed.

End StageLemmas.

(** ** [Simplechain.py]: the pipeline, request by request *)

Section Pipeline.

Context {model : Model}.
Import Simplechain.

Lemma format_first x :
  PromptTemplate.format first_input {[ "name" := x ]}
  = Ok ("Tell me about " ++ x).
Proof. vm_compute. reflexivity. Qed.

Lemma format_second x :
  PromptTemplate.format second_input {[ "person" := x ]}
  = Ok ("When was " ++ x ++ " born").
Proof. vm_compute. reflexivity. Qed.

Lemma format_third x :
  PromptTemplate.format third_input {[ "dob" := x ]}
  = Ok ("Mention five major event in this " ++ x).
Proof. vm_compute. reflexivity. Qed.

Lemma chain_stage x (kv : dict) s :
  kv !! "name" = Some x ->
  LLMChain__call__ chain (Dict kv) true s
  = stage chain person_memory ("Tell me about " ++ x) x s.
Proof.
  intros Hx.
  apply (LLMChain_stage chain first_input person_memory "name");
    [reflexivity .. | discriminate | exact Hx | apply format_first].
Qed.

Lemma chain2_stage x (kv : dict) s :
  kv !! "person" = Some x ->
  LLMChain__call__ chain2 (Dict kv) true s
  = stage chain2 dob_memory ("When was " ++ x ++ " born") x s.
Proof.
  intros Hx.
  apply (LLMChain_stage chain2 second_input dob_memory "person");
    [reflexivity .. | discriminate | exact Hx | apply format_second].
Qed.

Lemma chain3_stage x (kv : dict) s :
  kv !! "dob" = Some x ->
  LLMChain__call__ chain3 (Dict kv) true s
  = stage chain3 desc_memory ("Mention five major event in this " ++ x) x s.
Proof.
  intros Hx.
  apply (LLMChain_stage chain3 third_input desc_memory "dob");
    [reflexivity .. | discriminate | exact Hx | apply format_third].
Qed.

Lemma prep_parent x s :
  prep_inputs ["name"] None (Str x) s = (Ok ({[ "name" := x ]} : dict), s).
Proof. vm_compute. reflexivity. Qed.

Lemma parent_result (x a1 a2 a3 : string) :
  prep_outputs ["person"; "dob"; "description"] None {[ "name" := x ]}
     (<["person" := a1]> (<["dob" := a2]> (<["description" := a3]> ∅))) false
  = ret ({[ "name" := x; "person" := a1; "dob" := a2;
            "description" := a3 ]} : dict).
Proof. vm_compute. reflexivity. Qed.

Lemma known_after_first (x a1 : string) :
  (({[ "person" := a1 ]} : dict) ∪ {[ "name" := x ]}) !! "person" = Some a1.
Proof. apply lookup_union_Some_raw. left. apply lookup_singleton_eq. Qed.

Lemma known_after_second (a2 : string) (kv : dict) :
  (({[ "dob" := a2 ]} : dict) ∪ kv) !! "dob" = Some a2.
Proof. apply lookup_union_Some_raw. left. apply lookup_singleton_eq. Qed.

(** The call [parent_chain(x)] is [pipeline x]. *)
Lemma parent_chain_pipeline x s :
  SequentialChain__call__ parent_chain (Str x) s = pipeline x s.
Proof.
  unfold SequentialChain__call__, Chain__call__.
  change (SequentialChain.input_keys parent_chain) with ["name"].
  change (SequentialChain.output_keys parent_chain)
    with ["person"; "dob"; "description"].
  rewrite bind_eq, prep_parent.
  unfold SequentialChain_call.
  change (SequentialChain.chains parent_chain) with [chain; chain2; chain3].
  change (SequentialChain.output_variables parent_chain)
    with ["person"; "dob"; "description"].
  rewrite !bind_eq, run_chains_cons, bind_eq.
  rewrite (chain_stage x) by apply lookup_singleton_eq.
  unfold stage at 1, pipeline.
  change (OpenAI.temperature (LLMChain.llm chain)) with (8 # 10)%Q.
  destruct (completion (requests s) _) as [a1|msg]; [|reflexivity].
  rewrite run_chains_cons, bind_eq.
  change (LLMChain.output_key chain) with "person".
  rewrite (chain2_stage a1) by apply known_after_first.
  unfold stage at 1.
  change (OpenAI.temperature (LLMChain.llm chain2)) with (8 # 10)%Q.
  destruct (completion (requests _) _) as [a2|msg]; [|reflexivity].
  rewrite run_chains_cons, bind_eq.
  change (LLMChain.output_key chain2) with "dob".
  rewrite (chain3_stage a2) by apply known_after_second.
  unfold stage at 1.
  change (OpenAI.temperature (LLMChain.llm chain3)) with (8 # 10)%Q.
  destruct (completion (requests _) _) as [a3|msg]; [|reflexivity].
  change (LLMChain.output_key chain3) with "description".
  cbn [run_chains]. unfold ret at 1. unfold lift.
  replace (select _ _)
    with (Ok (<["person" := a1]> (<["dob" := a2]>
                (<["description" := a3]> (∅ : dict)))))
    by (vm_compute; reflexivity).
  rewrite parent_result. reflexivity.
Qed.

Lemma setup_initial :
  setup initial
  = (Ok tt,
     State [] [st_title "Search your Topic"; st_text_input "Enter your topic"]
       ({[ 0%nat := []; 1%nat := []; 2%nat := [] ]} : gmap nat (list (string * string)))).
Proof. vm_compute. reflexivity. Qed.

Lemma parent_chain_valid : SequentialChain.validate_chains parent_chain = Ok tt.
Proof. vm_compute. reflexivity. Qed.

(** The statements before the guard, run in any state: two widgets on the
    page and three new, empty buffers. *)
Lemma setup_any s :
  setup s
  = (Ok tt,
     State (requests s)
       ((screen s ++ [st_title "Search your Topic"])
          ++ [st_text_input "Enter your topic"])%list
       (<[2%nat := []]> (<[1%nat := []]> (<[0%nat := []]> (heap s))))).
Proof.
  unfold setup. rewrite !bind_eq. unfold show at 1 2. unfold lift.
  replace (PromptTemplate.template_is_valid first_input) with (Ok tt)
    by (vm_compute; reflexivity).
  replace (PromptTemplate.template_is_valid second_input) with (Ok tt)
    by (vm_compute; reflexivity).
  replace (PromptTemplate.template_is_valid third_input) with (Ok tt)
    by (vm_compute; reflexivity).
  rewrite parent_chain_valid. reflexivity.
Qed.

Lemma buffer_after_setup s m :
  m ∈ memories -> buffer (setup s).2 m = [].
Proof.
  intros Hm. rewrite setup_any. unfold memories in Hm.
  rewrite !elem_of_cons in Hm. unfold buffer. cbn [snd heap].
  destruct Hm as [->|[->|[->|Hm]]]; [| | |inversion Hm];
    cbn [ConversationBufferMemory.chat_memory person_memory dob_memory
           desc_memory].
  - rewrite !lookup_insert_ne by discriminate. rewrite lookup_insert_eq.
    reflexivity.
  - rewrite lookup_insert_ne by discriminate. rewrite lookup_insert_eq.
    reflexivity.
  - rewrite lookup_insert_eq. reflexivity.
Qed.

Lemma simplechain_script_any x s :
  Simplechain.script x s
  = let s0 := (setup s).2 in
    if truthy x then
      match pipeline x s0 with
      | (Raise e, s1) => (Raise e, s1)
      | (Ok r, s1) =>
          (Ok tt,
           shown
             (shown
                (shown
                   (shown (shown s1 (st_write (Dict r)))
                      (st_expander "Person Name"))
                   (st_info (ConversationBufferMemory.get_buffer_string
                               (buffer s1 person_memory))))
                (st_expander "Major Events"))
             (st_info (ConversationBufferMemory.get_buffer_string
                         (buffer s1 desc_memory))))
      end
    else (Ok tt, s0).
Proof.
  unfold Simplechain.script. rewrite bind_eq, setup_any. cbv zeta.
  cbn [snd]. destruct (truthy x); [|reflexivity].
  rewrite bind_eq, parent_chain_pipeline.
  destruct (pipeline x _) as [[r|e] s1]; reflexivity.
Qed.

Lemma dom_result (x a1 a2 a3 : string) :
  dom ({[ "name" := x; "person" := a1; "dob" := a2; "description" := a3 ]} : dict)
  = ({[ "name"; "person"; "dob"; "description" ]} : gset string).
Proof. vm_compute. reflexivity. Qed.

(** What one call does to one buffer: nothing, or one exchange more. *)
Lemma pipeline_buffer x s m :
  m ∈ memories ->
  exists added,
    buffer (pipeline x s).2 m = (buffer s m ++ added)%list
    /\ length added <= 1
    /\ (is_ok (pipeline x s).1 = true -> length added = 1).
Proof.
  intros Hm. unfold memories in Hm.
  assert (Hcases : m = person_memory \/ m = dob_memory \/ m = desc_memory).
  { rewrite !elem_of_cons in Hm. destruct Hm as [?|[?|[?|Hm]]]; auto.
    inversion Hm. }
  unfold pipeline.
  destruct (completion (requests s) _) as [a1|msg1]; simpl.
  2:{ exists []. rewrite buffer_sent, app_nil_r. repeat split; auto; discriminate. }
  destruct (completion _ _) as [a2|msg2]; simpl.
  2:{ destruct Hcases as [->|[->| ->]].
      - eexists [_]. rewrite buffer_sent, buffer_saved_eq, buffer_sent.
        repeat split; auto; discriminate.
      - exists []. rewrite buffer_sent, buffer_saved_ne, buffer_sent, app_nil_r
          by discriminate.
        repeat split; auto; discriminate.
      - exists []. rewrite buffer_sent, buffer_saved_ne, buffer_sent, app_nil_r
          by discriminate.
        repeat split; auto; discriminate. }
  destruct (completion _ _) as [a3|msg3]; simpl.
  2:{ destruct Hcases as [->|[->| ->]].
      - eexists [_].
        rewrite buffer_sent, buffer_saved_ne, buffer_sent, buffer_saved_eq,
          buffer_sent by discriminate.
        repeat split; auto; discriminate.
      - eexists [_]. rewrite buffer_sent, buffer_saved_eq, buffer_sent,
          buffer_saved_ne, buffer_sent by discriminate.
        repeat split; auto; discriminate.
      - exists [].
        rewrite buffer_sent, buffer_saved_ne, buffer_sent, buffer_saved_ne,
          buffer_sent, app_nil_r by discriminate.
        repeat split; auto; discriminate. }
  destruct Hcases as [->|[->| ->]].
  - eexists [_].
    rewrite buffer_saved_ne, buffer_sent, buffer_saved_ne, buffer_sent,
      buffer_saved_eq, buffer_sent by discriminate.
    repeat split; auto.
  - eexists [_].
    rewrite buffer_saved_ne, buffer_sent, buffer_saved_eq, buffer_sent,
      buffer_saved_ne, buffer_sent by discriminate.
    repeat split; auto.
  - eexists [_].
    rewrite buffer_saved_eq, buffer_sent, buffer_saved_ne, buffer_sent,
      buffer_saved_ne, buffer_sent by discriminate.
    repeat split; auto.
Qed.

End Pipeline.

(** ** The sequential pipeline: result, buffers, failures *)

Section PipelineClaims.

Context {model : Model}.
Import Simplechain.

(** C1, as amended.  Called on "Albert Einstein", the pipeline returns a
    mapping whose keys are exactly [name], [person], [dob] and
    [description]: the three output keys and, with them, the input key
    [name] (a chain called directly returns its inputs with its
    outputs).  The input recorded for stage 2 is the output recorded for
    stage 1, verbatim, and it is the value returned under [person]. *)
Theorem parent_chain_result_keys (s : state) (r : dict) (s' : state) :
  SequentialChain__call__ parent_chain (Str "Albert Einstein") s = (Ok r, s') ->
  dom r = ({[ "name"; "person"; "dob"; "description" ]} : gset string)
  /\ r !! "name" = Some "Albert Einstein"
  /\ exists o1 o2 : string,
       r !! "person" = Some o1
       /\ r !! "dob" = Some o2
       /\ buffer s' person_memory
          = (buffer s person_memory ++ [("Albert Einstein", o1)])%list
       /\ buffer s' dob_memory = (buffer s dob_memory ++ [(o1, o2)])%list.
Proof.
  rewrite parent_chain_pipeline. unfold pipeline.
  destruct (completion (requests s) _) as [a1|msg]; [|discriminate].
  destruct (completion _ _) as [a2|msg]; [|discriminate].
  destruct (completion _ _) as [a3|msg]; [|discriminate].
  intros Heq. inversion Heq; subst r s'; clear Heq.
  split; [apply dom_result|].
  split; [apply lookup_insert_eq|].
  exists a1, a2.
  split; [rewrite lookup_insert_ne by discriminate; apply lookup_insert_eq|].
  split.
  { rewrite !lookup_insert_ne by discriminate. apply lookup_insert_eq. }
  split.
  - rewrite buffer_saved_ne, buffer_sent, buffer_saved_ne, buffer_sent,
      buffer_saved_eq, buffer_sent by discriminate.
    reflexivity.
  - rewrite buffer_saved_ne, buffer_sent, buffer_saved_eq, buffer_sent,
      buffer_saved_ne, buffer_sent by discriminate.
    reflexivity.
Qed.

End PipelineClaims.

(** C1 as stated fails: on a model that answers every request, the mapping
    the pipeline returns for "Albert Einstein" has the key [name] besides
    [person], [dob] and [description]. *)
Lemma parent_chain_result_has_name :
  exists (r : dict) (s' : state),
    SequentialChain__call__ (model := echo) Simplechain.parent_chain
      (Str "Albert Einstein") initial = (Ok r, s')
    /\ r !! "name" = Some "Albert Einstein"
    /\ dom r ≠ ({[ "person"; "dob"; "description" ]} : gset string).
Proof.
  eexists. eexists. split; [vm_compute; reflexivity|].
  split; [vm_compute; reflexivity|].
  intros Hdom.
  assert (Hin : "name" ∈ ({[ "person"; "dob"; "description" ]} : gset string)).
  { rewrite <- Hdom. apply elem_of_dom. eexists. vm_compute. reflexivity. }
  rewrite !elem_of_union, !elem_of_singleton in Hin.
  destruct Hin as [[Hin|Hin]|Hin]; discriminate.
Qed.

Lemma parent_chain_result_keys_witness :
  let run :=
    SequentialChain__call__ (model := echo) Simplechain.parent_chain
      (Str "Albert Einstein") initial in
  let r := match run.1 with Ok r => r | Raise _ => ∅ end in
  run = (Ok r, run.2)
  /\ dom r = ({[ "name"; "person"; "dob"; "description" ]} : gset string)
  /\ r !! "name" = Some "Albert Einstein"
  /\ exists o1 o2 : string,
       r !! "person" = Some o1
       /\ r !! "dob" = Some o2
       /\ buffer run.2 Simplechain.person_memory
          = (buffer initial Simplechain.person_memory
               ++ [("Albert Einstein", o1)])%list
       /\ buffer run.2 Simplechain.dob_memory
          = (buffer initial Simplechain.dob_memory ++ [(o1, o2)])%list.
Proof.
  intros run r. split; [vm_compute; reflexivity|].
  apply (parent_chain_result_keys (model := echo) initial r run.2).
  vm_compute. reflexivity.
Defined.
(** ** The conversation buffers *)

Section BufferClaims.

Context {model : Model}.
Import Simplechain.

(** C3, as amended.  Within a run every buffer of the pipeline is
    append-only: whatever the call [parent_chain(x)] finds in a buffer is
    still there afterwards, with at most one exchange added after it; when
    the three requests are answered the call returns and has added
    exactly one exchange to each buffer, the input of the stage with its
    answer.  The buffers do not accumulate from run to run: a run of the
    script builds them anew, so that whatever an earlier run left, a run
    whose requests are answered ends with exactly one exchange in each
    buffer, its own. *)
Theorem buffers_append_within_a_run (x : string) (s : state)
    (a1 a2 a3 : string) :
  let t := (8 # 10)%Q in
  let q1 := Request ("Tell me about " ++ x) t in
  let q2 := Request ("When was " ++ a1 ++ " born") t in
  let q3 := Request ("Mention five major event in this " ++ a2) t in
  let call := SequentialChain__call__ parent_chain (Str x) s in
  let run := Simplechain.script x s in
  (forall m, m ∈ memories ->
     exists added,
       buffer call.2 m = (buffer s m ++ added)%list /\ length added <= 1)
  /\ (completion (requests s) q1 = inl a1 ->
      completion (requests s ++ [q1])%list q2 = inl a2 ->
      completion ((requests s ++ [q1]) ++ [q2])%list q3 = inl a3 ->
      is_ok call.1 = true
      /\ buffer call.2 person_memory = (buffer s person_memory ++ [(x, a1)])%list
      /\ buffer call.2 dob_memory = (buffer s dob_memory ++ [(a1, a2)])%list
      /\ buffer call.2 desc_memory = (buffer s desc_memory ++ [(a2, a3)])%list
      /\ (truthy x = true ->
          run.1 = Ok tt
          /\ buffer run.2 person_memory = [(x, a1)]
          /\ buffer run.2 dob_memory = [(a1, a2)]
          /\ buffer run.2 desc_memory = [(a2, a3)])).
Proof.
  intros t q1 q2 q3 call run. split.
  - intros m Hm. subst call. rewrite parent_chain_pipeline.
    destruct (pipeline_buffer x s m Hm) as (added & Hb & Hle & _).
    exists added. split; [exact Hb|exact Hle].
  - intros H1 H2 H3.
    assert (Hpipe : forall s0, requests s0 = requests s ->
      pipeline x s0
      = (Ok ({[ "name" := x; "person" := a1; "dob" := a2;
                "description" := a3 ]} : dict),
         saved
           (sent
              (saved
                 (sent (saved (sent s0 ("Tell me about " ++ x) t)
                          person_memory (x, a1))
                    ("When was " ++ a1 ++ " born") t)
                 dob_memory (a1, a2))
              ("Mention five major event in this " ++ a2) t)
           desc_memory (a2, a3))).
    { intros s0 Hreq. unfold pipeline. cbv zeta. rewrite Hreq.
      fold t. fold q1. rewrite H1.
      rewrite requests_saved, requests_sent, Hreq. fold q1. fold q2.
      rewrite H2.
      rewrite requests_saved, requests_sent, requests_saved, requests_sent,
        Hreq.
      fold q1. fold q2. fold q3. rewrite H3. reflexivity. }
    assert (Hbuf : forall s0, requests s0 = requests s ->
      buffer (pipeline x s0).2 person_memory
      = (buffer s0 person_memory ++ [(x, a1)])%list
      /\ buffer (pipeline x s0).2 dob_memory
         = (buffer s0 dob_memory ++ [(a1, a2)])%list
      /\ buffer (pipeline x s0).2 desc_memory
         = (buffer s0 desc_memory ++ [(a2, a3)])%list).
    { intros s0 Hreq. rewrite (Hpipe s0 Hreq). cbn [snd].
      split; [|split].
      - rewrite buffer_saved_ne, buffer_sent, buffer_saved_ne, buffer_sent,
          buffer_saved_eq, buffer_sent by discriminate.
        reflexivity.
      - rewrite buffer_saved_ne, buffer_sent, buffer_saved_eq, buffer_sent,
          buffer_saved_ne, buffer_sent by discriminate.
        reflexivity.
      - rewrite buffer_saved_eq, buffer_sent, buffer_saved_ne, buffer_sent,
          buffer_saved_ne, buffer_sent by discriminate.
        reflexivity. }
    subst call run. rewrite parent_chain_pipeline.
    destruct (Hbuf s eq_refl) as (Hp & Hd & He).
    split; [rewrite (Hpipe s eq_refl); reflexivity|].
    split; [exact Hp|]. split; [exact Hd|]. split; [exact He|].
    intros Hx. rewrite simplechain_script_any. cbv zeta. rewrite Hx.
    assert (Hreq : requests (setup s).2 = requests s)
      by (rewrite setup_any; reflexivity).
    destruct (Hbuf (setup s).2 Hreq) as (Hp' & Hd' & He').
    rewrite !buffer_after_setup in Hp', Hd', He'
      by (unfold memories; rewrite !elem_of_cons; auto).
    rewrite (Hpipe (setup s).2 Hreq) in Hp', Hd', He' |- *.
    cbn [fst snd] in *. rewrite !buffer_shown.
    split; [reflexivity|]. split; [exact Hp'|]. split; [exact Hd'|exact He'].
Qed.

End BufferClaims.

Lemma buffers_append_within_a_run_witness :
  let x := "Albert Einstein" in
  let a1 := "<Tell me about Albert Einstein>" in
  let a2 := "<When was " ++ a1 ++ " born>" in
  let a3 := "<Mention five major event in this " ++ a2 ++ ">" in
  let s :=
    saved (Simplechain.setup initial).2 Simplechain.person_memory
      ("Marie Curie", "a physicist") in
  let call :=
    SequentialChain__call__ (model := echo) Simplechain.parent_chain (Str x) s in
  let run := Simplechain.script (model := echo) x s in
  buffer s Simplechain.person_memory = [("Marie Curie", "a physicist")]
  /\ is_ok call.1 = true
  /\ buffer call.2 Simplechain.person_memory
     = [("Marie Curie", "a physicist"); (x, a1)]
  /\ buffer call.2 Simplechain.desc_memory = [(a2, a3)]
  /\ truthy x = true
  /\ run.1 = Ok tt
  /\ buffer run.2 Simplechain.person_memory = [(x, a1)].
Proof.
  intros x a1 a2 a3 s call run.
  assert (Hs : buffer s Simplechain.person_memory
               = [("Marie Curie", "a physicist")])
    by (vm_compute; reflexivity).
  assert (Hd : buffer s Simplechain.desc_memory = [])
    by (vm_compute; reflexivity).
  destruct (buffers_append_within_a_run (model := echo) x s a1 a2 a3)
    as [_ Hrun].
  destruct (Hrun eq_refl eq_refl eq_refl)
    as (Hok & Hp & _ & He & Hscript).
  destruct (Hscript eq_refl) as (Hr & Hrp & _).
  fold call in Hok, Hp, He. fold run in Hr, Hrp.
  rewrite Hs in Hp. rewrite Hd in He.
  split; [exact Hs|]. split; [exact Hok|]. split; [exact Hp|].
  split; [exact He|]. split; [reflexivity|]. split; [exact Hr|exact Hrp].
Defined.

(** C3 as stated fails: the buffers do not hold [n] entries after [n]
    invocations.  The script invokes the pipeline once in a run and
    builds its buffers anew in every run: after two runs in a row, on
    different inputs and with every request answered, each buffer holds
    one exchange, that of the second run, not two. *)
Lemma buffers_do_not_accumulate :
  let run1 := Simplechain.script (model := echo) "Albert Einstein" initial in
  let run2 := Simplechain.script (model := echo) "Marie Curie" run1.2 in
  run1.1 = Ok tt
  /\ run2.1 = Ok tt
  /\ length (requests run2.2) = 6
  /\ map (fun m => length (buffer run1.2 m)) Simplechain.memories = [1; 1; 1]
  /\ map (fun m => length (buffer run2.2 m)) Simplechain.memories = [1; 1; 1]
  /\ buffer run2.2 Simplechain.person_memory
     = [("Marie Curie", "<Tell me about Marie Curie>")].
Proof. vm_compute. repeat split; reflexivity. Qed.

(** ** The three scripts, request by request *)

Section ScriptLemmas.

Context {model : Model}.

Lemma main_script x s :
  main.script x s
  = let s0 :=
      shown (shown s (st_title "Search Your Topic :mag: "))
        (st_text_input "Enter your topic") in
    if truthy x then
      match completion (requests s0) (Request x (8 # 10)) with
      | inl a => (Ok tt, shown (sent s0 x (8 # 10)) (st_write (Str a)))
      | inr msg => (Raise (APIError msg), sent s0 x (8 # 10))
      end
    else (Ok tt, s0).
Proof.
  unfold main.script, bind, show, ret, OpenAI__call__. cbv zeta.
  destruct (truthy x); [|reflexivity].
  change (OpenAI.temperature main.llm) with (8 # 10)%Q.
  cbn [requests screen heap].
  destruct (completion _ _) as [a|msg]; reflexivity.
Qed.

Lemma prep_gdp s :
  prep_inputs (LLMChain.input_keys prompt.chain) None (Str "GDP") s
  = (Ok ({[ "financial_concept" := "GDP" ]} : dict), s).
Proof. vm_compute. reflexivity. Qed.

Lemma prep_translation s :
  prep_inputs (LLMChain.input_keys prompt.chain2) None
    (Dict {[ "sentence" := "Hellow, How r u"; "target_language" := "Telugu" ]}) s
  = (Ok ({[ "sentence" := "Hellow, How r u"; "target_language" := "Telugu" ]}
          : dict), s).
Proof. vm_compute. reflexivity. Qed.

Lemma prep_big_dict s :
  prep_inputs (LLMChain.input_keys prompt.chain3) None
    (Dict {[ "input" := "big" ]}) s
  = (Ok ({[ "input" := "big" ]} : dict), s).
Proof. vm_compute. reflexivity. Qed.

Lemma prep_big_str s :
  prep_inputs (LLMChain.input_keys prompt.chain3) None (Str "big") s
  = (Ok ({[ "input" := "big" ]} : dict), s).
Proof. vm_compute. reflexivity. Qed.

Lemma single_prompt_eq s :
  prompt.single_prompt s = prompt.single_prompt_behaviour s.
Proof.
  unfold prompt.single_prompt, prompt.single_prompt_behaviour.
  rewrite bind_eq. unfold lift at 1.
  replace (PromptTemplate.template_is_valid prompt.prompt) with (Ok tt)
    by (vm_compute; reflexivity).
  rewrite bind_eq.
  rewrite (LLMChain_run_plain prompt.chain (Str "GDP")
             {[ "financial_concept" := "GDP" ]}
             {[ "financial_concept" := "GDP" ]} prompt.gdp_text s);
    [|reflexivity|apply prep_gdp|vm_compute; reflexivity
     |vm_compute; reflexivity].
  change (OpenAI.temperature (LLMChain.llm prompt.chain)) with (8 # 10)%Q.
  destruct (completion _ _) as [a|msg]; reflexivity.
Qed.

Lemma language_translation_eq s :
  prompt.language_translation s
  = let s1 := shown s (print (Str "******Language Translation**********")) in
    match completion (requests s1) (Request prompt.translation_text (8 # 10)) with
    | inl a =>
        (Ok tt, shown (sent s1 prompt.translation_text (8 # 10)) (print (Str a)))
    | inr msg =>
        (Raise (APIError msg), sent s1 prompt.translation_text (8 # 10))
    end.
Proof.
  unfold prompt.language_translation.
  rewrite bind_eq. unfold show at 1. rewrite bind_eq. unfold lift at 1.
  replace (PromptTemplate.template_is_valid prompt.lang_prompt) with (Ok tt)
    by (vm_compute; reflexivity).
  rewrite bind_eq. cbv zeta.
  rewrite (LLMChain_run_plain prompt.chain2 _
             {[ "sentence" := "Hellow, How r u"; "target_language" := "Telugu" ]}
             {[ "sentence" := "Hellow, How r u"; "target_language" := "Telugu" ]}
             prompt.translation_text);
    [|reflexivity|apply prep_translation|vm_compute; reflexivity
     |vm_compute; reflexivity].
  change (OpenAI.temperature (LLMChain.llm prompt.chain2)) with (8 # 10)%Q.
  destruct (completion _ _) as [a|msg]; reflexivity.
Qed.

Lemma few_shot_format_big :
  FewShotPromptTemplate.format prompt.few_shot {[ "input" := "big" ]}
  = Ok prompt.few_shot_text.
Proof. vm_compute. reflexivity. Qed.

Lemma few_shot_demo_eq s :
  prompt.few_shot_demo s
  = let t := (8 # 10)%Q in
    let s2 :=
      shown (shown s (print (Str "*******FewShotPromptTemplate*******")))
        (print (Str prompt.few_shot_text)) in
    match completion (requests s2) (Request prompt.few_shot_text t) with
    | inr msg => (Raise (APIError msg), sent s2 prompt.few_shot_text t)
    | inl a3 =>
        let s3 :=
          shown (sent s2 prompt.few_shot_text t)
            (print (Dict {[ "text" := a3; "input" := "big" ]})) in
        match completion (requests s3) (Request prompt.few_shot_text t) with
        | inr msg => (Raise (APIError msg), sent s3 prompt.few_shot_text t)
        | inl a4 =>
            (Ok tt, shown (sent s3 prompt.few_shot_text t) (print (Str a4)))
        end
    end.
Proof.
  unfold prompt.few_shot_demo.
  rewrite bind_eq. unfold show at 1. rewrite bind_eq. unfold lift at 1.
  replace (PromptTemplate.template_is_valid prompt.example_prompt_f)
    with (Ok tt) by (vm_compute; reflexivity).
  rewrite bind_eq. unfold lift at 1.
  replace (FewShotPromptTemplate.template_is_valid prompt.few_shot)
    with (Ok tt) by (vm_compute; reflexivity).
  rewrite bind_eq. unfold lift at 1. rewrite few_shot_format_big.
  rewrite bind_eq. unfold show at 1. rewrite bind_eq. cbv zeta.
  rewrite (LLMChain_plain prompt.chain3 _ {[ "input" := "big" ]}
             {[ "input" := "big" ]} prompt.few_shot_text false);
    [|reflexivity|apply prep_big_dict|vm_compute; reflexivity
     |apply few_shot_format_big].
  unfold plain_stage.
  change (OpenAI.temperature (LLMChain.llm prompt.chain3)) with (8 # 10)%Q.
  destruct (completion _ _) as [a3|msg]; [|reflexivity].
  rewrite bind_eq. unfold show at 1. rewrite bind_eq.
  rewrite (LLMChain_run_plain prompt.chain3 _ {[ "input" := "big" ]}
             {[ "input" := "big" ]} prompt.few_shot_text);
    [|reflexivity|apply prep_big_str|vm_compute; reflexivity
     |apply few_shot_format_big].
  change (OpenAI.temperature (LLMChain.llm prompt.chain3)) with (8 # 10)%Q.
  change (LLMChain.output_key prompt.chain3) with "text".
  replace (({[ "text" := a3 ]} : dict) ∪ {[ "input" := "big" ]})
    with ({[ "text" := a3; "input" := "big" ]} : dict)
    by (vm_compute; reflexivity).
  destruct (completion _ _) as [a4|msg]; reflexivity.
Qed.

(** [prompt.py] is [prompt.behaviour]. *)
Lemma prompt_script_behaviour s : prompt.script s = prompt.behaviour s.
Proof.
  unfold prompt.script, prompt.behaviour.
  rewrite bind_eq, single_prompt_eq.
  destruct (prompt.single_prompt_behaviour s) as [[[]|e] s1]; [|reflexivity].
  rewrite bind_eq, language_translation_eq. cbv zeta.
  destruct (completion _ _) as [a2|msg]; [|reflexivity].
  rewrite few_shot_demo_eq. reflexivity.
Qed.

Lemma simplechain_script x :
  Simplechain.script x initial
  = let s0 := (Simplechain.setup initial).2 in
    if truthy x then
      match Simplechain.pipeline x s0 with
      | (Raise e, s1) => (Raise e, s1)
      | (Ok r, s1) =>
          (Ok tt,
           shown
             (shown
                (shown
                   (shown (shown s1 (st_write (Dict r)))
                      (st_expander "Person Name"))
                   (st_info (ConversationBufferMemory.get_buffer_string
                               (buffer s1 Simplechain.person_memory))))
                (st_expander "Major Events"))
             (st_info (ConversationBufferMemory.get_buffer_string
                         (buffer s1 Simplechain.desc_memory))))
      end
    else (Ok tt, s0).
Proof.
  unfold Simplechain.script. rewrite bind_eq.
  destruct (Simplechain.setup initial) as [[[]|e] s0] eqn:Hsetup;
    [|rewrite setup_initial in Hsetup; discriminate].
  cbv zeta. simpl snd. destruct (truthy x); [|reflexivity].
  rewrite bind_eq, parent_chain_pipeline.
  destruct (Simplechain.pipeline x s0) as [[r|e] s1]; reflexivity.
Qed.

End ScriptLemmas.

(** ** Failures *)

Section FailureClaims.

Context {model : Model}.
Import Simplechain.

Lemma sent_raised (s : state) (text : string) (t : Q) (msg : string) :
  completion (requests s) (Request text t) = inr msg ->
  raised_by_last_request (APIError msg) (sent s text t).
Proof. intros Hc. exists (requests s), (Request text t), msg. auto. Qed.

Lemma pipeline_raise x s e s' :
  pipeline x s = (Raise e, s') -> raised_by_last_request e s'.
Proof.
  unfold pipeline.
  next_request a1 msg H1.
  2:{ intros Heq. inversion Heq. apply sent_raised, H1. }
  next_request a2 msg H2.
  2:{ intros Heq. inversion Heq. apply sent_raised, H2. }
  next_request a3 msg H3.
  2:{ intros Heq. inversion Heq. apply sent_raised, H3. }
  discriminate.
Qed.

Lemma main_raise x s e s' :
  main.script x s = (Raise e, s') -> raised_by_last_request e s'.
Proof.
  rewrite main_script. cbv zeta. destruct (truthy x); [|discriminate].
  next_request a msg Hc; [discriminate|].
  intros Heq. inversion Heq. apply sent_raised, Hc.
Qed.

Lemma simplechain_raise x e s' :
  Simplechain.script x initial = (Raise e, s') ->
  raised_by_last_request e s'.
Proof.
  rewrite simplechain_script. cbv zeta. destruct (truthy x); [|discriminate].
  destruct (pipeline x _) as [[r|e0] s1] eqn:Hp; [discriminate|].
  intros Heq. inversion Heq; subst. eapply pipeline_raise, Hp.
Qed.

Lemma prompt_raise s e s' :
  prompt.script s = (Raise e, s') -> raised_by_last_request e s'.
Proof.
  rewrite prompt_script_behaviour. unfold prompt.behaviour.
  unfold prompt.single_prompt_behaviour.
  next_request a1 msg H1.
  2:{ intros Heq. inversion Heq. apply sent_raised, H1. }
  cbv zeta.
  next_request a2 msg H2.
  2:{ intros Heq. inversion Heq. apply sent_raised, H2. }
  next_request a3 msg H3.
  2:{ intros Heq. inversion Heq. apply sent_raised, H3. }
  next_request a4 msg H4.
  2:{ intros Heq. inversion Heq. apply sent_raised, H4. }
  discriminate.
Qed.

(** Which request of a log it is that is looked at, when the log is
    given request by request. *)
Ltac same_log H :=
  repeat first [ rewrite requests_shown in H | rewrite requests_saved in H
               | rewrite requests_sent in H ];
  rewrite <- ?app_assoc in H; cbn [app] in H.

Ltac settle :=
  match goal with
  | H : completion ?l ?r = inl _, H' : completion ?l ?r = inr _ |- _ =>
      rewrite H in H'; discriminate
  | H : completion ?l ?r = inr _, H' : completion ?l ?r = inr _ |- _ =>
      rewrite H in H'; inversion H'; subst; split; reflexivity
  end.

Ltac which_request Hlog :=
  same_log Hlog; apply app_inv_head in Hlog; cbn [app] in Hlog.

Lemma main_uncaught x : uncaught (main.script x).
Proof.
  intros s before r after msg. rewrite main_script. cbv zeta.
  destruct (truthy x).
  - next_request a msg0 Hc; cbn [fst snd]; intros Hlog Hfail;
      same_log Hc; which_request Hlog;
      destruct before as [|b before]; cbn [app] in Hlog;
      [|destruct before; discriminate| |destruct before; discriminate];
      inversion Hlog; subst r after; rewrite app_nil_r in Hfail;
      rewrite Hfail in Hc; inversion Hc; subst; auto.
  - cbn [fst snd]. intros Hlog _. exfalso.
    rewrite !requests_shown in Hlog.
    rewrite <- (app_nil_r (requests s)) in Hlog at 1.
    apply app_inv_head in Hlog. destruct before; discriminate.
Qed.

Lemma simplechain_uncaught x : uncaught (Simplechain.script x).
Proof.
  intros s before r after msg. rewrite simplechain_script_any. cbv zeta.
  assert (Hreq : requests (setup s).2 = requests s)
    by (rewrite setup_any; reflexivity).
  destruct (truthy x).
  2:{ cbn [fst snd]. intros Hlog _. exfalso. rewrite Hreq in Hlog.
      rewrite <- (app_nil_r (requests s)) in Hlog at 1.
      apply app_inv_head in Hlog. destruct before; discriminate. }
  unfold pipeline. cbv zeta.
  next_request a1 msg1 H1.
  2:{ cbn [fst snd]. intros Hlog Hfail. same_log Hlog. same_log H1.
      rewrite Hreq in Hlog, H1. which_request Hlog.
      destruct before as [|b before]; cbn [app] in Hlog;
        [|destruct before; discriminate].
      inversion Hlog; subst r after. rewrite app_nil_r in Hfail. settle. }
  next_request a2 msg2 H2.
  2:{ cbn [fst snd]. intros Hlog Hfail. same_log Hlog. same_log H1.
      same_log H2. rewrite Hreq in Hlog, H1, H2. which_request Hlog.
      destruct before as [|b1 [|b2 before]]; cbn [app] in Hlog;
        [| |destruct before; discriminate];
        inversion Hlog; subst; cbn [app] in Hfail;
        rewrite ?app_nil_r in Hfail; settle. }
  next_request a3 msg3 H3; cbn [fst snd]; intros Hlog Hfail;
    same_log Hlog; same_log H1; same_log H2; same_log H3;
    rewrite Hreq in Hlog, H1, H2, H3; which_request Hlog;
    (destruct before as [|b1 [|b2 [|b3 before]]]; cbn [app] in Hlog;
     [| | |destruct before; discriminate]);
    inversion Hlog; subst; cbn [app] in Hfail;
    rewrite ?app_nil_r in Hfail; settle.
Qed.

Lemma prompt_uncaught : uncaught prompt.script.
Proof.
  intros s before r after msg. rewrite prompt_script_behaviour.
  unfold prompt.behaviour, prompt.single_prompt_behaviour. cbv zeta.
  next_request a1 msg1 H1.
  2:{ cbn [fst snd]. intros Hlog Hfail. which_request Hlog.
      destruct before as [|b before]; cbn [app] in Hlog;
        [|destruct before; discriminate].
      inversion Hlog; subst r after. rewrite app_nil_r in Hfail. settle. }
  next_request a2 msg2 H2.
  2:{ cbn [fst snd]. intros Hlog Hfail. same_log H2. which_request Hlog.
      destruct before as [|b1 [|b2 before]]; cbn [app] in Hlog;
        [| |destruct before; discriminate];
        inversion Hlog; subst; cbn [app] in Hfail;
        rewrite ?app_nil_r in Hfail; settle. }
  next_request a3 msg3 H3.
  2:{ cbn [fst snd]. intros Hlog Hfail. same_log H2. same_log H3.
      which_request Hlog.
      destruct before as [|b1 [|b2 [|b3 before]]]; cbn [app] in Hlog;
        [| | |destruct before; discriminate];
        inversion Hlog; subst; cbn [app] in Hfail;
        rewrite ?app_nil_r in Hfail; settle. }
  next_request a4 msg4 H4; cbn [fst snd]; intros Hlog Hfail;
    same_log H2; same_log H3; same_log H4; which_request Hlog;
    (destruct before as [|b1 [|b2 [|b3 [|b4 before]]]]; cbn [app] in Hlog;
     [| | | |destruct before; discriminate]);
    inversion Hlog; subst; cbn [app] in Hfail;
    rewrite ?app_nil_r in Hfail; settle.
Qed.

(** The loop of the sequential chain up to a stage that raises, for the
    three stages of [parent_chain]. *)
Lemma stage_failure x s i c (kv : dict) s1 e s2 :
  SequentialChain.chains parent_chain !! i = Some c ->
  run_chains (take i (SequentialChain.chains parent_chain))
    {[ "name" := x ]} s = (Ok kv, s1) ->
  LLMChain__call__ c (Dict kv) true s1 = (Raise e, s2) ->
  pipeline x s = (Raise e, s2)
  /\ raised_by_last_request e s2
  /\ length (requests s2) = length (requests s) + S i
  /\ screen s2 = screen s
  /\ (forall j c' m,
        i <= j ->
        SequentialChain.chains parent_chain !! j = Some c' ->
        LLMChain.memory c' = Some m ->
        buffer s2 m = buffer s m)
  /\ (forall j c',
        i <= j ->
        SequentialChain.chains parent_chain !! j = Some c' ->
        kv !! LLMChain.output_key c' = None).
Proof.
  change (SequentialChain.chains parent_chain) with [chain; chain2; chain3].
  intros Hi Hpre Hc.
  destruct i as [|[|[|i]]]; simpl in Hi; [| | |discriminate];
    inversion Hi; subst c; clear Hi; cbn [take] in Hpre.
  - (* stage 1 *)
    cbn [run_chains] in Hpre. unfold ret in Hpre. inversion Hpre; subst kv s1.
    rewrite (chain_stage x) in Hc by apply lookup_singleton_eq.
    unfold stage in Hc.
    change (OpenAI.temperature (LLMChain.llm chain)) with (8 # 10)%Q in Hc.
    unfold pipeline.
    next_request a1 msg H1; [discriminate|].
    inversion Hc; subst e s2.
    split; [reflexivity|]. split; [apply sent_raised, H1|].
    split; [rewrite requests_sent, length_app; simpl; lia|].
    split; [reflexivity|]. split.
    + intros j c' m _ _ _. apply buffer_sent.
    + intros j c' _ Hj.
      destruct j as [|[|[|j]]]; simpl in Hj; [| | |discriminate];
        inversion Hj; subst c'; apply lookup_singleton_ne; discriminate.
  - (* stage 2 *)
    rewrite run_chains_cons, bind_eq in Hpre.
    rewrite (chain_stage x) in Hpre by apply lookup_singleton_eq.
    unfold stage in Hpre.
    change (OpenAI.temperature (LLMChain.llm chain)) with (8 # 10)%Q in Hpre.
    change (LLMChain.output_key chain) with "person" in Hpre.
    unfold pipeline.
    next_request a1 msg1 H1; [|discriminate].
    cbn [run_chains] in Hpre. unfold ret in Hpre. inversion Hpre; subst kv s1.
    rewrite (chain2_stage a1) in Hc by apply known_after_first.
    unfold stage in Hc.
    change (OpenAI.temperature (LLMChain.llm chain2)) with (8 # 10)%Q in Hc.
    next_request a2 msg H2; [discriminate|].
    inversion Hc; subst e s2.
    split; [reflexivity|]. split; [apply sent_raised, H2|].
    split.
    { rewrite requests_sent, requests_saved, requests_sent, !length_app.
      simpl. lia. }
    split; [reflexivity|]. split.
    + intros j c' m Hle Hj Hm.
      destruct j as [|[|[|j]]]; simpl in Hj; [lia| | |discriminate];
        inversion Hj; subst c'; inversion Hm; subst m;
        rewrite buffer_sent, buffer_saved_ne, buffer_sent by discriminate;
        reflexivity.
    + intros j c' Hle Hj.
      destruct j as [|[|[|j]]]; simpl in Hj; [lia| | |discriminate];
        inversion Hj; subst c';
        (apply lookup_union_None_2; apply lookup_singleton_ne; discriminate).
  - (* stage 3 *)
    rewrite run_chains_cons, bind_eq in Hpre.
    rewrite (chain_stage x) in Hpre by apply lookup_singleton_eq.
    unfold stage in Hpre.
    change (OpenAI.temperature (LLMChain.llm chain)) with (8 # 10)%Q in Hpre.
    change (LLMChain.output_key chain) with "person" in Hpre.
    unfold pipeline.
    next_request a1 msg1 H1; [|discriminate].
    rewrite run_chains_cons, bind_eq in Hpre.
    rewrite (chain2_stage a1) in Hpre by apply known_after_first.
    unfold stage in Hpre.
    change (OpenAI.temperature (LLMChain.llm chain2)) with (8 # 10)%Q in Hpre.
    change (LLMChain.output_key chain2) with "dob" in Hpre.
    next_request a2 msg2 H2; [|discriminate].
    cbn [run_chains] in Hpre. unfold ret in Hpre. inversion Hpre; subst kv s1.
    rewrite (chain3_stage a2) in Hc by apply known_after_second.
    unfold stage in Hc.
    change (OpenAI.temperature (LLMChain.llm chain3)) with (8 # 10)%Q in Hc.
    next_request a3 msg H3; [discriminate|].
    inversion Hc; subst e s2.
    split; [reflexivity|]. split; [apply sent_raised, H3|].
    split.
    { rewrite requests_sent, requests_saved, requests_sent, requests_saved,
        requests_sent, !length_app.
      simpl. lia. }
    split; [reflexivity|]. split.
    + intros j c' m Hle Hj Hm.
      destruct j as [|[|[|j]]]; simpl in Hj; [lia|lia| |discriminate].
      inversion Hj; subst c'; inversion Hm; subst m.
      rewrite buffer_sent, buffer_saved_ne, buffer_sent, buffer_saved_ne,
        buffer_sent by discriminate.
      reflexivity.
    + intros j c' Hle Hj.
      destruct j as [|[|[|j]]]; simpl in Hj; [lia|lia| |discriminate].
      inversion Hj; subst c'.
      apply lookup_union_None_2; [apply lookup_singleton_ne; discriminate|].
      apply lookup_union_None_2; apply lookup_singleton_ne; discriminate.
Qed.

(** C4.  When stage [i] of the pipeline raises, the call of the pipeline
    raises the same exception and ends in the state stage [i] left: the
    later stages send no request ([i + 1] requests in all), save nothing
    to their buffers and produce none of their output keys, nothing is
    shown, and the script ends with that exception.  In none of the three
    scripts is an exception caught or changed: a script that ends with an
    exception ends with the error of the last request it sent, as the
    client raised it; and whichever request of a run of [main.py],
    [Simplechain.py] or [prompt.py] it is that fails, the run sends
    nothing after it and ends with its error. *)
Theorem failing_stage_aborts (x : string) (s : state) (i : nat)
    (c : LLMChain.t) (kv : dict) (s1 : state) (e : exn) (s2 : state) :
  (SequentialChain.chains parent_chain !! i = Some c ->
   run_chains (take i (SequentialChain.chains parent_chain))
     {[ "name" := x ]} s = (Ok kv, s1) ->
   LLMChain__call__ c (Dict kv) true s1 = (Raise e, s2) ->
   SequentialChain__call__ parent_chain (Str x) s = (Raise e, s2)
   /\ raised_by_last_request e s2
   /\ length (requests s2) = length (requests s) + S i
   /\ screen s2 = screen s
   /\ (forall j c' m,
         i <= j ->
         SequentialChain.chains parent_chain !! j = Some c' ->
         LLMChain.memory c' = Some m ->
         buffer s2 m = buffer s m)
   /\ (forall j c',
         i <= j ->
         SequentialChain.chains parent_chain !! j = Some c' ->
         kv !! LLMChain.output_key c' = None)
   /\ (s = (setup initial).2 -> truthy x = true ->
       Simplechain.script x initial = (Raise e, s2)))
  /\ (forall y e' s'',
        main.script y initial = (Raise e', s'')
        \/ Simplechain.script y initial = (Raise e', s'')
        \/ prompt.script initial = (Raise e', s'') ->
        raised_by_last_request e' s'')
  /\ (forall y, uncaught (main.script y))
  /\ (forall y, uncaught (Simplechain.script y))
  /\ uncaught prompt.script.
Proof.
  split.
  - intros Hi Hpre Hc.
    destruct (stage_failure x s i c kv s1 e s2 Hi Hpre Hc)
      as (Hp & Hlast & Hlen & Hscreen & Hbuf & Hkeys).
    split; [rewrite parent_chain_pipeline; exact Hp|].
    split; [exact Hlast|]. split; [exact Hlen|]. split; [exact Hscreen|].
    split; [exact Hbuf|]. split; [exact Hkeys|].
    intros -> Hx. rewrite simplechain_script. cbv zeta. rewrite Hx, Hp.
    reflexivity.
  - split; [|split; [exact main_uncaught|
                     split; [exact simplechain_uncaught|exact prompt_uncaught]]].
    intros y e' s'' [Hm|[Hs|Hq]].
    + eapply main_raise, Hm.
    + eapply simplechain_raise, Hs.
    + eapply prompt_raise, Hq.
Qed.

End FailureClaims.

Lemma failing_stage_aborts_witness :
  let x := "Albert Einstein" in
  let s := (Simplechain.setup initial).2 in
  let pre :=
    run_chains (model := failing_at 1)
      (take 1 (SequentialChain.chains Simplechain.parent_chain))
      {[ "name" := x ]} s in
  let kv := match pre.1 with Ok kv => kv | Raise _ => ∅ end in
  let failed :=
    LLMChain__call__ (model := failing_at 1) Simplechain.chain2 (Dict kv) true
      pre.2 in
  let t := (8 # 10)%Q in
  let sent_before :=
    [Request prompt.gdp_text t; Request prompt.translation_text t] in
  SequentialChain.chains Simplechain.parent_chain !! 1%nat
    = Some Simplechain.chain2
  /\ pre = (Ok kv, pre.2)
  /\ failed = (Raise (APIError "rate limit"), failed.2)
  /\ SequentialChain__call__ (model := failing_at 1) Simplechain.parent_chain
       (Str x) s = (Raise (APIError "rate limit"), failed.2)
  /\ length (requests failed.2) = length (requests s) + 2
  /\ requests (main.script (model := failing_at 0) "GDP" initial).2
     = (requests initial ++ [] ++ [Request "GDP" t])%list
  /\ (main.script (model := failing_at 0) "GDP" initial).1
     = Raise (APIError "rate limit")
  /\ requests (prompt.script (model := failing_at 2) initial).2
     = (requests initial ++ sent_before ++ [Request prompt.few_shot_text t])%list
  /\ (prompt.script (model := failing_at 2) initial).1
     = Raise (APIError "rate limit").
Proof.
  intros x s pre kv failed t sent_before.
  assert (H1 : SequentialChain.chains Simplechain.parent_chain !! 1%nat
               = Some Simplechain.chain2) by reflexivity.
  assert (H2 : pre = (Ok kv, pre.2)) by (vm_compute; reflexivity).
  assert (H3 : failed = (Raise (APIError "rate limit"), failed.2))
    by (vm_compute; reflexivity).
  assert (H4 : requests (main.script (model := failing_at 0) "GDP" initial).2
               = (requests initial ++ [] ++ [Request "GDP" t])%list)
    by (vm_compute; reflexivity).
  assert (H5 : requests (prompt.script (model := failing_at 2) initial).2
               = (requests initial ++ sent_before
                    ++ [Request prompt.few_shot_text t])%list)
    by (vm_compute; reflexivity).
  destruct (failing_stage_aborts (model := failing_at 1) x s 1
              Simplechain.chain2 kv pre.2 (APIError "rate limit") failed.2)
    as (Hstage & _).
  destruct (Hstage H1 H2 H3) as (Hcall & _ & Hlen & _).
  destruct (failing_stage_aborts (model := failing_at 0) x s 1
              Simplechain.chain2 kv pre.2 (APIError "rate limit") failed.2)
    as (_ & _ & Hmain & _).
  destruct (failing_stage_aborts (model := failing_at 2) x s 1
              Simplechain.chain2 kv pre.2 (APIError "rate limit") failed.2)
    as (_ & _ & _ & _ & Hprompt).
  split; [exact H1|]. split; [exact H2|]. split; [exact H3|].
  split; [exact Hcall|]. split; [exact Hlen|]. split; [exact H4|].
  split.
  { exact (proj2 (Hmain "GDP" initial [] (Request "GDP" t) [] "rate limit"
                    H4 eq_refl)). }
  split; [exact H5|].
  exact (proj2 (Hprompt initial sent_before (Request prompt.few_shot_text t) []
                  "rate limit" H5 eq_refl)).
Defined.

(** ** Requests sent by the scripts *)

Section RequestClaims.

Context {model : Model}.

(** C7.  The single-prompt query given "GDP" sends exactly one request,
    with temperature 0.8, whether it is answered or not; when it is
    answered, the script shows exactly one text, the answer.  This holds
    of [main.py] with "GDP" typed in, and of the first demonstration of
    [prompt.py], whose input "GDP" is in the script. *)
Theorem single_prompt_one_request (a a' : string) :
  completion [] (Request "GDP" (8 # 10)) = inl a ->
  completion [] (Request prompt.gdp_text (8 # 10)) = inl a' ->
  main.script "GDP" initial
  = (Ok tt,
     State [Request "GDP" (8 # 10)]
       [st_title "Search Your Topic :mag: "; st_text_input "Enter your topic";
        st_write (Str a)] ∅)
  /\ prompt.single_prompt initial
     = (Ok tt, State [Request prompt.gdp_text (8 # 10)] [print (Str a')] ∅)
  /\ PromptTemplate.format prompt.prompt {[ "financial_concept" := "GDP" ]}
     = Ok prompt.gdp_text
  /\ requests (main.script "GDP" initial).2 = [Request "GDP" (8 # 10)]
  /\ requests (prompt.single_prompt initial).2
     = [Request prompt.gdp_text (8 # 10)].
Proof.
  intros Ha Ha'.
  rewrite main_script, single_prompt_eq.
  unfold prompt.single_prompt_behaviour. cbv zeta.
  change (truthy "GDP") with true. cbv iota.
  change (requests (shown (shown initial _) _)) with (@nil request).
  change (requests initial) with (@nil request).
  rewrite Ha, Ha'.
  split; [reflexivity|]. split; [reflexivity|].
  split; [vm_compute; reflexivity|]. split; reflexivity.
Qed.

Lemma single_prompt_always_one_request :
  requests (main.script "GDP" initial).2 = [Request "GDP" (8 # 10)]
  /\ requests (prompt.single_prompt initial).2
     = [Request prompt.gdp_text (8 # 10)].
Proof.
  rewrite main_script, single_prompt_eq.
  unfold prompt.single_prompt_behaviour. cbv zeta.
  change (truthy "GDP") with true. cbv iota.
  split.
  - next_request a msg Ha; reflexivity.
  - next_request a msg Ha; reflexivity.
Qed.

(** C9.  On every run of [prompt.py] the requests sent are, in order, the
    one-variable prompt, the two-variable prompt, and twice the same
    few-shot prompt, rendered from the input "big" and holding both
    examples: four requests when the run completes (a run that a failing
    request ends has sent the first of them, up to that request).  The
    few-shot chain is called twice with the same input, not once per
    example. *)
Theorem few_shot_chain_called_twice (out : result unit) (s' : state) :
  prompt.script initial = (out, s') ->
  let four :=
    [ Request prompt.gdp_text (8 # 10);
      Request prompt.translation_text (8 # 10);
      Request prompt.few_shot_text (8 # 10);
      Request prompt.few_shot_text (8 # 10) ] in
  requests s' `prefix_of` four
  /\ (is_ok out = true -> requests s' = four)
  /\ prompt_format (LLMChain.prompt prompt.chain3) {[ "input" := "big" ]}
     = Ok prompt.few_shot_text
  /\ length (FewShotPromptTemplate.examples prompt.few_shot) = 2.
Proof.
  rewrite prompt_script_behaviour. unfold prompt.behaviour.
  unfold prompt.single_prompt_behaviour. cbv zeta.
  assert (Hfmt : prompt_format (LLMChain.prompt prompt.chain3)
                   {[ "input" := "big" ]} = Ok prompt.few_shot_text)
    by apply few_shot_format_big.
  next_request a1 msg H1.
  2:{ intros Heq. inversion Heq; subst out s'; clear Heq.
      split; [eexists; reflexivity|]. split; [discriminate|]. auto. }
  next_request a2 msg H2.
  2:{ intros Heq. inversion Heq; subst out s'; clear Heq.
      split; [eexists; reflexivity|]. split; [discriminate|]. auto. }
  next_request a3 msg H3.
  2:{ intros Heq. inversion Heq; subst out s'; clear Heq.
      split; [eexists; reflexivity|]. split; [discriminate|]. auto. }
  next_request a4 msg H4.
  2:{ intros Heq. inversion Heq; subst out s'; clear Heq.
      split; [exists []; reflexivity|]. split; [discriminate|]. auto. }
  intros Heq. inversion Heq; subst out s'; clear Heq.
  split; [exists []; reflexivity|]. split; [reflexivity|]. auto.
Qed.

(** C10.  With nothing typed in, neither interactive script sends a
    request or shows a result: the page holds the title and the input
    box only, and the three buffers of the pipeline are empty. *)
Theorem empty_input_does_nothing :
  main.script "" initial
  = (Ok tt,
     State []
       [st_title "Search Your Topic :mag: "; st_text_input "Enter your topic"]
       ∅)
  /\ (Simplechain.script "" initial).1 = Ok tt
  /\ requests (Simplechain.script "" initial).2 = []
  /\ screen (Simplechain.script "" initial).2
     = [st_title "Search your Topic"; st_text_input "Enter your topic"]
  /\ Forall (fun m => buffer (Simplechain.script "" initial).2 m = [])
       Simplechain.memories.
Proof.
  rewrite main_script, simplechain_script, setup_initial. cbv zeta.
  change (truthy "") with false. cbv iota.
  split; [reflexivity|]. split; [reflexivity|]. split; [reflexivity|].
  split; [reflexivity|].
  unfold Simplechain.memories. repeat constructor.
Qed.

End RequestClaims.

Lemma single_prompt_one_request_witness :
  let a := "<GDP>" in
  let a' := "<" ++ prompt.gdp_text ++ ">" in
  completion (Model := echo) [] (Request "GDP" (8 # 10)) = inl a
  /\ completion (Model := echo) [] (Request prompt.gdp_text (8 # 10)) = inl a'
  /\ main.script (model := echo) "GDP" initial
     = (Ok tt,
        State [Request "GDP" (8 # 10)]
          [st_title "Search Your Topic :mag: "; st_text_input "Enter your topic";
           st_write (Str a)] ∅)
  /\ prompt.single_prompt (model := echo) initial
     = (Ok tt, State [Request prompt.gdp_text (8 # 10)] [print (Str a')] ∅).
Proof.
  intros a a'.
  assert (H1 : completion (Model := echo) [] (Request "GDP" (8 # 10)) = inl a)
    by reflexivity.
  assert (H2 : completion (Model := echo) []
                 (Request prompt.gdp_text (8 # 10)) = inl a')
    by reflexivity.
  destruct (single_prompt_one_request (model := echo) a a' H1 H2)
    as (Hm & Hp & _).
  split; [exact H1|]. split; [exact H2|]. split; [exact Hm|exact Hp].
Defined.

Lemma few_shot_chain_called_twice_witness :
  let run := prompt.script (model := echo) initial in
  run = (Ok tt, run.2)
  /\ requests run.2
     = [ Request prompt.gdp_text (8 # 10);
         Request prompt.translation_text (8 # 10);
         Request prompt.few_shot_text (8 # 10);
         Request prompt.few_shot_text (8 # 10) ].
Proof.
  intros run.
  assert (H : run = (Ok tt, run.2)) by (vm_compute; reflexivity).
  split; [exact H|].
  destruct (few_shot_chain_called_twice (model := echo) (Ok tt) run.2 H)
    as (_ & Hall & _).
  exact (Hall eq_refl).
Defined.

(** ** The wiring of the pipeline *)

(** What [validate_chains] establishes for any list of chains: an input
    key of a chain is known beforehand, or is a memory variable of that
    chain, or is an output key of a chain before it. *)
Lemma validate_from_inputs (cs : list LLMChain.t) :
  forall (known known' : gset string),
    SequentialChain.validate_from known cs = Ok known' ->
    forall i c k,
      cs !! i = Some c ->
      k ∈ LLMChain.input_keys c ->
      k ∈ known
      \/ k ∈ SequentialChain.memory_variables c
      \/ exists j c', j < i /\ cs !! j = Some c' /\ k ∈ LLMChain.output_keys c'.
Proof.
  induction cs as [|c0 rest IH]; intros known known' Hv i c k Hi Hk.
  - destruct i; discriminate.
  - cbn [SequentialChain.validate_from] in Hv.
    destruct (bool_decide _) eqn:Hmiss in Hv; [discriminate|].
    destruct (bool_decide _) eqn:Hover in Hv; [discriminate|].
    destruct i as [|i]; simpl in Hi.
    + inversion Hi; subst c0.
      apply bool_decide_eq_false in Hmiss.
      destruct (decide (k ∈ known)) as [|Hnk]; [left; assumption|].
      destruct (decide (k ∈ SequentialChain.memory_variables c)) as [|Hnm];
        [right; left; assumption|].
      exfalso. apply Hmiss. intros Hempty.
      assert (Hin : k ∈ (list_to_set (LLMChain.input_keys c) ∖ known)
                          ∖ SequentialChain.memory_variables c).
      { rewrite !elem_of_difference, elem_of_list_to_set. auto. }
      rewrite Hempty in Hin. apply elem_of_empty in Hin. exact Hin.
    + destruct (IH _ _ Hv i c k Hi Hk) as [Hin|[Hin|(j & c' & Hj & Hc' & Hout)]].
      * apply elem_of_union in Hin as [Hin|Hin]; [left; assumption|].
        right. right. exists 0, c0. split; [lia|]. split; [reflexivity|].
        apply elem_of_list_to_set in Hin. exact Hin.
      * right. left. assumption.
      * right. right. exists (S j), c'. split; [lia|]. split; assumption.
Qed.

Section WiringClaims.

Import Simplechain.

(** C8.  Every input key of a stage of [parent_chain] is the input key
    of the pipeline or the output key of a stage strictly before it:
    stage 1 reads [name], the input of the pipeline; stage 2 reads
    [person], the output key of stage 1; stage 3 reads [dob], the output
    key of stage 2. *)
Theorem stage_inputs_available (i : nat) (c : LLMChain.t) (k : string) :
  SequentialChain.chains parent_chain !! i = Some c ->
  k ∈ LLMChain.input_keys c ->
  (k ∈ SequentialChain.input_variables parent_chain
   \/ exists j c',
        j < i /\ SequentialChain.chains parent_chain !! j = Some c'
        /\ k ∈ LLMChain.output_keys c')
  /\ ((i = 0 /\ k = "name"
       /\ SequentialChain.input_variables parent_chain = ["name"])
      \/ (i = 1 /\ k = "person" /\ LLMChain.output_keys chain = ["person"])
      \/ (i = 2 /\ k = "dob" /\ LLMChain.output_keys chain2 = ["dob"])).
Proof.
  change (SequentialChain.chains parent_chain) with [chain; chain2; chain3].
  intros Hi Hk.
  destruct i as [|[|[|i]]]; simpl in Hi; [| | |discriminate];
    inversion Hi; subst c; clear Hi;
    apply list_elem_of_singleton in Hk; subst k.
  - split; [left; apply list_elem_of_here|]. left. auto.
  - split.
    + right. exists 0, chain. split; [lia|]. split; [reflexivity|].
      apply list_elem_of_here.
    + right. left. auto.
  - split.
    + right. exists 1, chain2. split; [lia|]. split; [reflexivity|].
      apply list_elem_of_here.
    + right. right. auto.
Qed.

End WiringClaims.

Lemma stage_inputs_available_witness :
  SequentialChain.chains Simplechain.parent_chain !! 1 = Some Simplechain.chain2
  /\ "person" ∈ LLMChain.input_keys Simplechain.chain2
  /\ ("person" ∈ SequentialChain.input_variables Simplechain.parent_chain
      \/ exists j c',
           j < 1
           /\ SequentialChain.chains Simplechain.parent_chain !! j = Some c'
           /\ "person" ∈ LLMChain.output_keys c').
Proof.
  assert (H1 : SequentialChain.chains Simplechain.parent_chain !! 1
               = Some Simplechain.chain2) by reflexivity.
  assert (H2 : "person" ∈ LLMChain.input_keys Simplechain.chain2)
    by apply list_elem_of_here.
  split; [exact H1|]. split; [exact H2|].
  exact (proj1 (stage_inputs_available 1 Simplechain.chain2 "person" H1 H2)).
Defined.
(** ** The template renderer *)

Section Renderer.

Import Formatter.



(** *** What the iterator yields *)














(** *** Rendering what the iterator yields *)

Lemma _vformat_S levels format_string (kwargs : dict) used auto :
  _vformat (S levels) format_string kwargs used auto
  = match
      render (fun format_spec => _vformat levels format_spec kwargs) kwargs
        (parse format_string).1 (parse format_string).2 used auto
    with
    | Ok (pieces, used, auto) => Ok (join "" pieces, used, auto)
    | Raise e => Raise e
    end.
Proof. cbn [_vformat]. destruct (parse format_string). reflexivity. Qed.













End Renderer.

Section RendererClaims.

Import Formatter.




(** C2, as amended.  The few-shot template rendered for the input "big"
    is, line by line: the prefix, an empty line, the two examples in
    their order, and the query on two lines, "word:big" and then the
    unterminated " antonym:", after which nothing follows. *)
Theorem few_shot_rendering :
  FewShotPromptTemplate.format_examples prompt.few_shot
    (FewShotPromptTemplate.examples prompt.few_shot)
  = Ok ["word:tall, antonym:short"; "word:happy, antonym:sad"]
  /\ FewShotPromptTemplate.format prompt.few_shot {[ "input" := "big" ]}
     = Ok (join nl [ "Given the antonym of every input"; "";
                     "word:tall, antonym:short"; "word:happy, antonym:sad";
                     "word:big"; " antonym:" ]).
Proof. split; vm_compute; reflexivity. Qed.

End RendererClaims.



Example translation_prompt_rendered :
  PromptTemplate.format prompt.lang_prompt
    {[ "sentence" := "Hellow, How r u"; "target_language" := "Telugu" ]}
  = Ok prompt.translation_text.
Proof. vm_compute. reflexivity. Qed.



(** With a placeholder that looks into its value the error of the lookup
    can come first: ["{a[0]}{b}"] rendered without [b] raises the
    missing-variable error only when the value of [a] is not empty. *)
Example index_lookup_fails_first :
  let T := PromptTemplate.mk ["a"; "b"] "{a[0]}{b}" in
  PromptTemplate.new ["a"; "b"] "{a[0]}{b}" = Ok T
  /\ PromptTemplate.format T {[ "a" := "" ]} = Raise IndexError
  /\ PromptTemplate.format T {[ "a" := "xy" ]} = Raise (KeyError "b").
Proof. vm_compute. repeat split; reflexivity. Qed.

Lemma string_to_list_app (a b : string) :
  list_ascii_of_string (a ++ b)
  = (list_ascii_of_string a ++ list_ascii_of_string b)%list.
Proof.
  induction a as [|c a IH]; [reflexivity|].
  change (c :: list_ascii_of_string (a ++ b)
          = c :: (list_ascii_of_string a ++ list_ascii_of_string b)%list).
  f_equal. exact IH.
Qed.

Lemma not_ending (text ending : string) :
  bool_decide (list_ascii_of_string ending
                 `suffix_of` list_ascii_of_string text) = false ->
  ~ exists before, text = before ++ ending.
Proof.
  intros Hdec [before Heq]. apply bool_decide_eq_false in Hdec. apply Hdec.
  exists (list_ascii_of_string before). rewrite Heq. apply string_to_list_app.
Qed.

(** C2 as stated fails: the rendered text does not end with the line
    "word: big, antonym:", nor with that line written as the examples are,
    "word:big, antonym:"; the suffix of the template puts a line break, not
    a comma, after the word. *)
Lemma few_shot_no_single_trailing_line :
  exists text,
    FewShotPromptTemplate.format prompt.few_shot {[ "input" := "big" ]} = Ok text
    /\ (~ exists before, text = before ++ "word: big, antonym:")
    /\ (~ exists before, text = before ++ "word:big, antonym:")
    /\ text = ("Given the antonym of every input" ++ nl ++ nl
               ++ "word:tall, antonym:short" ++ nl
               ++ "word:happy, antonym:sad" ++ nl)
              ++ "word:big" ++ nl ++ " antonym:".
Proof.
  eexists. split; [vm_compute; reflexivity|].
  split; [apply not_ending; vm_compute; reflexivity|].
  split; [apply not_ending; vm_compute; reflexivity|].
  vm_compute. reflexivity.
Qed.

(** * Further properties of the scripts *)

(** ** [Simplechain.py]: a whole run, from any earlier state *)

Section SimplechainRuns.

Context {model : Model}.
Import Simplechain.

(** A run of [Simplechain.py] whose three requests are answered: the
    requests sent, each prompt made of the answer before it, and the page,
    from top to bottom. *)
Theorem simplechain_page_on_success (x : string) (s : state)
    (a1 a2 a3 : string) :
  let t := (8 # 10)%Q in
  let q1 := Request ("Tell me about " ++ x) t in
  let q2 := Request ("When was " ++ a1 ++ " born") t in
  let q3 := Request ("Mention five major event in this " ++ a2) t in
  truthy x = true ->
  completion (requests s) q1 = inl a1 ->
  completion (requests s ++ [q1])%list q2 = inl a2 ->
  completion ((requests s ++ [q1]) ++ [q2])%list q3 = inl a3 ->
  (Simplechain.script x s).1 = Ok tt
  /\ requests (Simplechain.script x s).2
     = (((requests s ++ [q1]) ++ [q2]) ++ [q3])%list
  /\ screen (Simplechain.script x s).2
     = (screen s
          ++ [ st_title "Search your Topic";
               st_text_input "Enter your topic";
               st_write (Dict {[ "name" := x; "person" := a1; "dob" := a2;
                                 "description" := a3 ]});
               st_expander "Person Name";
               st_info ("Human: " ++ x ++ nl ++ "AI: " ++ a1);
               st_expander "Major Events";
               st_info ("Human: " ++ a2 ++ nl ++ "AI: " ++ a3) ])%list.
Proof.
  intros t q1 q2 q3 Hx H1 H2 H3.
  rewrite simplechain_script_any. cbv zeta. rewrite Hx.
  assert (Hreq : requests (setup s).2 = requests s)
    by (rewrite setup_any; reflexivity).
  assert (Hscr : screen (setup s).2
                 = ((screen s ++ [st_title "Search your Topic"])
                      ++ [st_text_input "Enter your topic"])%list)
    by (rewrite setup_any; reflexivity).
  assert (Hp : buffer (setup s).2 person_memory = [])
    by (apply buffer_after_setup, list_elem_of_here).
  assert (Hd : buffer (setup s).2 desc_memory = []).
  { apply buffer_after_setup. unfold memories.
    apply list_elem_of_further, list_elem_of_further, list_elem_of_here. }
  set (s0 := (setup s).2) in *.
  unfold pipeline. cbv zeta. rewrite Hreq. fold t. fold q1. rewrite H1.
  rewrite requests_saved, requests_sent, Hreq. fold q1. fold q2. rewrite H2.
  rewrite requests_saved, requests_sent, requests_saved, requests_sent, Hreq.
  fold q1. fold q2. fold q3. rewrite H3.
  split; [reflexivity|]. split.
  { cbn [snd]. rewrite !requests_shown, requests_saved, requests_sent,
      requests_saved, requests_sent, requests_saved, requests_sent, Hreq.
    reflexivity. }
  rewrite buffer_saved_ne, buffer_sent, buffer_saved_ne, buffer_sent,
    buffer_saved_eq, buffer_sent, Hp by discriminate.
  rewrite buffer_saved_eq, buffer_sent, buffer_saved_ne, buffer_sent,
    buffer_saved_ne, buffer_sent, Hd by discriminate.
  cbn [snd screen shown sent saved]. rewrite Hscr, <- !app_assoc.
  reflexivity.
Qed.

(** The buffers do not outlive a run of the script: whatever an earlier
    run left in the heap, a run ends with at most one exchange in each
    buffer, exactly one when it completes on a non-empty input, none when
    the input is empty. *)
Theorem buffers_rebuilt_every_run (x : string) (s : state)
    (m : ConversationBufferMemory.t) :
  m ∈ memories ->
  length (buffer (Simplechain.script x s).2 m) <= 1
  /\ (truthy x = true -> is_ok (Simplechain.script x s).1 = true ->
      length (buffer (Simplechain.script x s).2 m) = 1)
  /\ (truthy x = false -> buffer (Simplechain.script x s).2 m = []).
Proof.
  intros Hm. rewrite simplechain_script_any. cbv zeta.
  pose proof (buffer_after_setup s m Hm) as Hempty.
  destruct (truthy x).
  - destruct (pipeline_buffer x (setup s).2 m Hm) as (added & Hb & Hle & Hok).
    rewrite Hempty in Hb. cbn [app] in Hb.
    destruct (pipeline x (setup s).2) as [[r|e] s1]; cbn [fst snd] in *.
    + rewrite !buffer_shown, Hb. split; [exact Hle|]. split; [|discriminate].
      intros _ _. apply Hok. reflexivity.
    + rewrite Hb. split; [exact Hle|]. split; [|discriminate].
      intros _ Hfalse. discriminate.
  - cbn [fst snd]. rewrite Hempty. split; [simpl; lia|].
    split; [discriminate|]. reflexivity.
Qed.

End SimplechainRuns.

Lemma simplechain_page_on_success_witness :
  let x := "Albert Einstein" in
  let a1 := "<Tell me about Albert Einstein>" in
  let a2 := "<When was " ++ a1 ++ " born>" in
  let a3 := "<Mention five major event in this " ++ a2 ++ ">" in
  let run := Simplechain.script (model := echo) x initial in
  truthy x = true
  /\ run.1 = Ok tt
  /\ screen run.2
     = [ st_title "Search your Topic";
         st_text_input "Enter your topic";
         st_write (Dict {[ "name" := x; "person" := a1; "dob" := a2;
                           "description" := a3 ]});
         st_expander "Person Name";
         st_info ("Human: " ++ x ++ nl ++ "AI: " ++ a1);
         st_expander "Major Events";
         st_info ("Human: " ++ a2 ++ nl ++ "AI: " ++ a3) ].
Proof.
  intros x a1 a2 a3 run.
  destruct (simplechain_page_on_success (model := echo) x initial a1 a2 a3
              eq_refl eq_refl eq_refl eq_refl) as (Hok & _ & Hscreen).
  split; [reflexivity|]. split; [exact Hok|exact Hscreen].
Defined.

Lemma buffers_rebuilt_every_run_witness :
  let earlier :=
    saved
      (saved (Simplechain.setup initial).2 Simplechain.person_memory
         ("Marie Curie", "a physicist"))
      Simplechain.person_memory ("Alan Turing", "a mathematician") in
  let run := Simplechain.script (model := echo) "Albert Einstein" earlier in
  Simplechain.person_memory ∈ Simplechain.memories
  /\ length (buffer earlier Simplechain.person_memory) = 2
  /\ length (buffer run.2 Simplechain.person_memory) <= 1.
Proof.
  intros earlier run.
  assert (Hm : Simplechain.person_memory ∈ Simplechain.memories)
    by apply list_elem_of_here.
  split; [exact Hm|]. split; [vm_compute; reflexivity|].
  exact (proj1 (buffers_rebuilt_every_run (model := echo) "Albert Einstein"
                  earlier Simplechain.person_memory Hm)).
Defined.

(** ** [main.py] and [prompt.py]: whole runs *)

Section OtherRuns.

Context {model : Model}.

(** [main.py] on any text typed in: the text is the prompt of the one
    request, as typed; the answer is written to the page as it came; when
    the request fails nothing is written and the error is the script's. *)
Theorem main_sends_input_verbatim (x : string) (s : state) :
  truthy x = true ->
  requests (main.script x s).2 = (requests s ++ [Request x (8 # 10)])%list
  /\ match completion (requests s) (Request x (8 # 10)) with
     | inl a =>
         (main.script x s).1 = Ok tt
         /\ screen (main.script x s).2
            = (screen s
                 ++ [ st_title "Search Your Topic :mag: ";
                      st_text_input "Enter your topic";
                      st_write (Str a) ])%list
     | inr msg =>
         (main.script x s).1 = Raise (APIError msg)
         /\ screen (main.script x s).2
            = (screen s
                 ++ [ st_title "Search Your Topic :mag: ";
                      st_text_input "Enter your topic" ])%list
     end.
Proof.
  intros Hx. rewrite main_script. cbv zeta. rewrite Hx.
  rewrite !requests_shown.
  destruct (completion (requests s) _) as [a|msg];
    cbn [fst snd requests screen shown sent];
    (split; [reflexivity|]); (split; [reflexivity|]);
    rewrite <- !app_assoc; reflexivity.
Qed.

(** What a completed run of [prompt.py] has printed, line by line: the
    three answers to the templated requests as they came, the two banners,
    the rendered few-shot prompt, and, for the call [chain3({...})], the
    mapping that holds the input next to the answer. *)
Theorem prompt_output_on_completion (s' : state) :
  prompt.script initial = (Ok tt, s') ->
  exists a1 a2 a3 a4 : string,
    screen s'
    = [ print (Str a1);
        print (Str "******Language Translation**********");
        print (Str a2);
        print (Str "*******FewShotPromptTemplate*******");
        print (Str prompt.few_shot_text);
        print (Dict {[ "text" := a3; "input" := "big" ]});
        print (Str a4) ]
    /\ completion [] (Request prompt.gdp_text (8 # 10)) = inl a1
    /\ completion [Request prompt.gdp_text (8 # 10)]
         (Request prompt.translation_text (8 # 10)) = inl a2
    /\ completion
         [Request prompt.gdp_text (8 # 10);
          Request prompt.translation_text (8 # 10)]
         (Request prompt.few_shot_text (8 # 10)) = inl a3
    /\ completion
         [Request prompt.gdp_text (8 # 10);
          Request prompt.translation_text (8 # 10);
          Request prompt.few_shot_text (8 # 10)]
         (Request prompt.few_shot_text (8 # 10)) = inl a4.
Proof.
  rewrite prompt_script_behaviour. unfold prompt.behaviour.
  unfold prompt.single_prompt_behaviour. cbv zeta.
  next_request a1 msg H1; [|discriminate].
  next_request a2 msg H2; [|discriminate].
  next_request a3 msg H3; [|discriminate].
  next_request a4 msg H4; [|discriminate].
  intros Heq. inversion Heq; subst s'; clear Heq.
  exists a1, a2, a3, a4.
  split; [reflexivity|]. split; [exact H1|]. split; [exact H2|].
  split; [exact H3|exact H4].
Qed.

(** Every request any of the three scripts sends carries the temperature
    0.8, and a run sends at most one ([main.py]), three ([Simplechain.py])
    or four ([prompt.py]) of them, whatever is typed in and whatever the
    model answers. *)
Theorem every_request_at_temperature (x : string) :
  let fixed := fun rs : list request =>
                 Forall (fun r => temperature r = (8 # 10)%Q) rs in
  (fixed (requests (main.script x initial).2)
   /\ length (requests (main.script x initial).2) <= 1)
  /\ (fixed (requests (Simplechain.script x initial).2)
      /\ length (requests (Simplechain.script x initial).2) <= 3)
  /\ (fixed (requests (prompt.script initial).2)
      /\ length (requests (prompt.script initial).2) <= 4).
Proof.
  intros fixed. unfold fixed. split; [|split].
  - rewrite main_script. cbv zeta.
    destruct (truthy x); [|split; [constructor|simpl; lia]].
    next_request a msg H; cbn [snd requests shown sent initial app];
      (split; [repeat constructor|simpl; lia]).
  - rewrite simplechain_script, setup_initial. cbv zeta. cbn [snd].
    destruct (truthy x); [|split; [constructor|simpl; lia]].
    unfold Simplechain.pipeline. cbv zeta.
    next_request a1 msg H1.
    2:{ cbn [snd requests shown sent saved app].
        split; [repeat constructor|simpl; lia]. }
    next_request a2 msg H2.
    2:{ cbn [snd requests shown sent saved app].
        split; [repeat constructor|simpl; lia]. }
    next_request a3 msg H3;
      cbn [snd requests shown sent saved app];
      (split; [repeat constructor|simpl; lia]).
  - rewrite prompt_script_behaviour. unfold prompt.behaviour.
    unfold prompt.single_prompt_behaviour. cbv zeta.
    next_request a1 msg H1.
    2:{ cbn [snd requests shown sent initial app].
        split; [repeat constructor|simpl; lia]. }
    next_request a2 msg H2.
    2:{ cbn [snd requests shown sent initial app].
        split; [repeat constructor|simpl; lia]. }
    next_request a3 msg H3.
    2:{ cbn [snd requests shown sent initial app].
        split; [repeat constructor|simpl; lia]. }
    next_request a4 msg H4;
      cbn [snd requests shown sent initial app];
      (split; [repeat constructor|simpl; lia]).
Qed.

(** The buffers are written, never read back into a prompt: what the
    pipeline returns and the requests it sends depend on its input and on
    the requests sent before, not on what the buffers, or the page,
    hold. *)
Theorem memory_never_reaches_the_model (x : string) (s1 s2 : state) :
  requests s1 = requests s2 ->
  (SequentialChain__call__ Simplechain.parent_chain (Str x) s1).1
  = (SequentialChain__call__ Simplechain.parent_chain (Str x) s2).1
  /\ requests (SequentialChain__call__ Simplechain.parent_chain (Str x) s1).2
     = requests (SequentialChain__call__ Simplechain.parent_chain (Str x) s2).2.
Proof.
  intros Hreq. rewrite !parent_chain_pipeline.
  assert (Hnorm : forall s,
    ((Simplechain.pipeline x s).1, requests (Simplechain.pipeline x s).2)
    = ((Simplechain.pipeline x (State (requests s) [] ∅)).1,
       requests (Simplechain.pipeline x (State (requests s) [] ∅)).2)).
  { intros s. unfold Simplechain.pipeline. cbv zeta.
    cbn [requests sent saved].
    destruct (completion (requests s) _) as [a1|msg]; [|reflexivity].
    destruct (completion _ _) as [a2|msg]; [|reflexivity].
    destruct (completion _ _) as [a3|msg]; reflexivity. }
  pose proof (Hnorm s1) as E1. pose proof (Hnorm s2) as E2.
  rewrite Hreq in E1. rewrite <- E2 in E1.
  split; [exact (f_equal fst E1)|exact (f_equal snd E1)].
Qed.

End OtherRuns.

Lemma main_sends_input_verbatim_witness :
  let x := "What is inflation?" in
  let run := main.script (model := echo) x initial in
  truthy x = true
  /\ requests run.2 = [Request x (8 # 10)]
  /\ screen run.2
     = [ st_title "Search Your Topic :mag: ";
         st_text_input "Enter your topic";
         st_write (Str "<What is inflation?>") ].
Proof.
  intros x run.
  destruct (main_sends_input_verbatim (model := echo) x initial eq_refl)
    as (Hreq & _ & Hscreen).
  split; [reflexivity|]. split; [exact Hreq|exact Hscreen].
Defined.

Lemma prompt_output_on_completion_witness :
  let run := prompt.script (model := echo) initial in
  run = (Ok tt, run.2) /\ length (screen run.2) = 7.
Proof.
  intros run.
  assert (H : run = (Ok tt, run.2)) by (vm_compute; reflexivity).
  split; [exact H|].
  destruct (prompt_output_on_completion (model := echo) run.2 H)
    as (a1 & a2 & a3 & a4 & Hscreen & _).
  rewrite Hscreen. reflexivity.
Defined.

Lemma memory_never_reaches_the_model_witness :
  let s1 := (Simplechain.setup initial).2 in
  let s2 := saved s1 Simplechain.person_memory ("Marie Curie", "a physicist") in
  let run1 :=
    SequentialChain__call__ (model := echo) Simplechain.parent_chain
      (Str "Albert Einstein") s1 in
  let run2 :=
    SequentialChain__call__ (model := echo) Simplechain.parent_chain
      (Str "Albert Einstein") s2 in
  requests s1 = requests s2
  /\ buffer s1 Simplechain.person_memory ≠ buffer s2 Simplechain.person_memory
  /\ run1.1 = run2.1
  /\ requests run1.2 = requests run2.2.
Proof.
  intros s1 s2 run1 run2.
  assert (H : requests s1 = requests s2) by reflexivity.
  split; [exact H|]. split; [vm_compute; discriminate|].
  exact (memory_never_reaches_the_model (model := echo) "Albert Einstein"
           s1 s2 H).
Defined.

(** ** Chains called with other inputs *)

Section ChainInputs.

Context {model : Model}.
Import Formatter.

Lemma few_shot_word_rendered (w : string) :
  FewShotPromptTemplate.format prompt.few_shot {[ "input" := w ]}
  = Ok (join nl [ "Given the antonym of every input"; "";
                  "word:tall, antonym:short"; "word:happy, antonym:sad";
                  "word:" ++ w; " antonym:" ]).
Proof. vm_compute. reflexivity. Qed.

(** The few-shot template rendered for any input word: the prefix, an
    empty line, the two examples, and the query with the word put in as it
    is, braces included, since only the template is parsed, not the
    values. *)
Theorem few_shot_any_word (w : string) :
  FewShotPromptTemplate.format prompt.few_shot {[ "input" := w ]}
  = Ok (join nl [ "Given the antonym of every input"; "";
                  "word:tall, antonym:short"; "word:happy, antonym:sad";
                  "word:" ++ w; " antonym:" ])
  /\ forall a : string,
       FewShotPromptTemplate.format prompt.few_shot
         {[ "input" := "{" ++ a ++ "}" ]}
       = Ok (join nl [ "Given the antonym of every input"; "";
                       "word:tall, antonym:short"; "word:happy, antonym:sad";
                       "word:{" ++ a ++ "}"; " antonym:" ]).
Proof.
  split; [apply few_shot_word_rendered|].
  intros a. apply (few_shot_word_rendered ("{" ++ a ++ "}")).
Qed.

Lemma demo_tem_any_concept (w : string) :
  PromptTemplate.format prompt.prompt {[ "financial_concept" := w ]}
  = Ok (" I want you to act as a financial advisor for people. In an easy way, explain the basics of "
        ++ w ++ ".").
Proof. vm_compute. reflexivity. Qed.

Lemma prep_concept_str (w : string) s :
  prep_inputs (LLMChain.input_keys prompt.chain) None (Str w) s
  = (Ok ({[ "financial_concept" := w ]} : dict), s).
Proof. vm_compute. reflexivity. Qed.

Lemma prep_concept_dict (w : string) s :
  prep_inputs (LLMChain.input_keys prompt.chain) None
    (Dict {[ "financial_concept" := w ]}) s
  = (Ok ({[ "financial_concept" := w ]} : dict), s).
Proof. vm_compute. reflexivity. Qed.

Lemma prep_word_str (w : string) s :
  prep_inputs (LLMChain.input_keys prompt.chain3) None (Str w) s
  = (Ok ({[ "input" := w ]} : dict), s).
Proof. vm_compute. reflexivity. Qed.

Lemma prep_word_dict (w : string) s :
  prep_inputs (LLMChain.input_keys prompt.chain3) None
    (Dict {[ "input" := w ]}) s
  = (Ok ({[ "input" := w ]} : dict), s).
Proof. vm_compute. reflexivity. Qed.

(** [run] with a bare string is [run] with the mapping that binds the one
    declared variable to it, for the one-variable chain and for the
    few-shot chain of [prompt.py]; the request carries the template with
    the string in the place of the variable. *)
Theorem run_string_is_run_mapping (w : string) (s : state) :
  LLMChain_run prompt.chain (Str w) s
  = LLMChain_run prompt.chain (Dict {[ "financial_concept" := w ]}) s
  /\ LLMChain_run prompt.chain3 (Str w) s
     = LLMChain_run prompt.chain3 (Dict {[ "input" := w ]}) s
  /\ requests (LLMChain_run prompt.chain (Str w) s).2
     = (requests s
          ++ [Request
                (" I want you to act as a financial advisor for people. In an easy way, explain the basics of "
                 ++ w ++ ".")%string (8 # 10)])%list
  /\ requests (LLMChain_run prompt.chain3 (Str w) s).2
     = (requests s
          ++ [Request
                (join nl [ "Given the antonym of every input"; "";
                           "word:tall, antonym:short";
                           "word:happy, antonym:sad";
                           ("word:" ++ w)%string; " antonym:" ])
                (8 # 10)])%list.
Proof.
  assert (Hsel1 : select (LLMChain.input_keys prompt.chain)
                    {[ "financial_concept" := w ]}
                  = Ok ({[ "financial_concept" := w ]} : dict))
    by (apply select_singleton, lookup_singleton_eq).
  assert (Hsel3 : select (LLMChain.input_keys prompt.chain3)
                    {[ "input" := w ]}
                  = Ok ({[ "input" := w ]} : dict))
    by (apply select_singleton, lookup_singleton_eq).
  assert (Hf1 : prompt_format (LLMChain.prompt prompt.chain)
                  {[ "financial_concept" := w ]}
                = Ok (" I want you to act as a financial advisor for people. In an easy way, explain the basics of "
                      ++ w ++ ".")).
  { change (LLMChain.prompt prompt.chain) with (Prompt prompt.prompt).
    cbn [prompt_format]. apply demo_tem_any_concept. }
  assert (Hf3 : prompt_format (LLMChain.prompt prompt.chain3) {[ "input" := w ]}
                = Ok (join nl [ "Given the antonym of every input"; "";
                                "word:tall, antonym:short";
                                "word:happy, antonym:sad";
                                "word:" ++ w; " antonym:" ])).
  { change (LLMChain.prompt prompt.chain3) with (FewShot prompt.few_shot).
    cbn [prompt_format]. apply few_shot_word_rendered. }
  pose proof (LLMChain_run_plain prompt.chain (Str w) _ _ _ s eq_refl
                (prep_concept_str w s) Hsel1 Hf1) as E1.
  pose proof (LLMChain_run_plain prompt.chain (Dict _) _ _ _ s eq_refl
                (prep_concept_dict w s) Hsel1 Hf1) as E2.
  pose proof (LLMChain_run_plain prompt.chain3 (Str w) _ _ _ s eq_refl
                (prep_word_str w s) Hsel3 Hf3) as E3.
  pose proof (LLMChain_run_plain prompt.chain3 (Dict _) _ _ _ s eq_refl
                (prep_word_dict w s) Hsel3 Hf3) as E4.
  split; [exact (eq_trans E1 (eq_sym E2))|].
  split; [exact (eq_trans E3 (eq_sym E4))|].
  change (OpenAI.temperature (LLMChain.llm prompt.chain)) with (8 # 10)%Q in E1.
  change (OpenAI.temperature (LLMChain.llm prompt.chain3)) with (8 # 10)%Q in E3.
  split.
  - rewrite E1. clear. destruct (completion (requests s) _) as [a|msg];
      reflexivity.
  - rewrite E3. clear. destruct (completion (requests s) _) as [a|msg];
      reflexivity.
Qed.

(** A chain without memory called with a bare string, when its prompt
    does not declare exactly one variable, raises [ValueError] before
    anything is sent: the state is unchanged. *)
Theorem bare_string_needs_one_variable (c : LLMChain.t) (w : string)
    (return_only_outputs : bool) (s : state) :
  LLMChain.memory c = None ->
  length (elements (list_to_set (LLMChain.input_keys c) : gset string)) ≠ 1 ->
  LLMChain__call__ c (Str w) return_only_outputs s
  = (Raise (ValueError "A single string input was passed in, but this chain expects multiple inputs"),
     s).
Proof.
  intros Hm Hlen.
  unfold LLMChain__call__, Chain__call__. rewrite Hm, bind_eq.
  unfold prep_inputs. rewrite bind_eq.
  change (list_to_set [] : gset string) with (∅ : gset string).
  rewrite difference_empty_L.
  destruct (elements (list_to_set (LLMChain.input_keys c) : gset string))
    as [|k [|k' rest]]; [reflexivity| |reflexivity].
  simpl in Hlen. contradiction.
Qed.

(** A chain without memory called with a mapping that lacks one of the
    variables its prompt declares raises [ValueError] before anything is
    sent, through [__call__] and through [run]. *)
Theorem missing_input_key (c : LLMChain.t) (d : dict) (k : string)
    (return_only_outputs : bool) (s : state) :
  LLMChain.memory c = None ->
  k ∈ LLMChain.input_keys c ->
  d !! k = None ->
  LLMChain__call__ c (Dict d) return_only_outputs s
  = (Raise (ValueError "Missing some input keys"), s)
  /\ LLMChain_run c (Dict d) s
     = (Raise (ValueError "Missing some input keys"), s).
Proof.
  intros Hm Hk Hnone.
  assert (Hcall : forall rof,
    LLMChain__call__ c (Dict d) rof s
    = (Raise (ValueError "Missing some input keys"), s)).
  { intros rof. unfold LLMChain__call__, Chain__call__.
    rewrite Hm. unfold prep_inputs, bind, ret, raise.
    rewrite bool_decide_true; [reflexivity|].
    intros Hempty.
    assert (Hin : k ∈ (list_to_set (LLMChain.input_keys c) : gset string)
                        ∖ dom d).
    { apply elem_of_difference. split; [apply elem_of_list_to_set, Hk|].
      apply not_elem_of_dom, Hnone. }
    rewrite Hempty in Hin. apply elem_of_empty in Hin. exact Hin. }
  split; [apply Hcall|].
  unfold LLMChain_run. rewrite bind_eq, Hcall. reflexivity.
Qed.





End ChainInputs.

Lemma bare_string_needs_one_variable_witness :
  LLMChain.memory prompt.chain2 = None
  /\ length (elements (list_to_set (LLMChain.input_keys prompt.chain2)
                         : gset string)) ≠ 1
  /\ LLMChain__call__ (model := echo) prompt.chain2 (Str "Hellow, How r u")
       false initial
     = (Raise (ValueError "A single string input was passed in, but this chain expects multiple inputs"),
        initial).
Proof.
  assert (H1 : LLMChain.memory prompt.chain2 = None) by reflexivity.
  assert (H2 : length (elements (list_to_set (LLMChain.input_keys prompt.chain2)
                                   : gset string)) ≠ 1)
    by (vm_compute; discriminate).
  split; [exact H1|]. split; [exact H2|].
  exact (bare_string_needs_one_variable (model := echo) prompt.chain2
           "Hellow, How r u" false initial H1 H2).
Defined.

Lemma missing_input_key_witness :
  let d : dict := {[ "sentence" := "Hellow, How r u" ]} in
  LLMChain.memory prompt.chain2 = None
  /\ "target_language" ∈ LLMChain.input_keys prompt.chain2
  /\ d !! "target_language" = None
  /\ LLMChain_run (model := echo) prompt.chain2 (Dict d) initial
     = (Raise (ValueError "Missing some input keys"), initial).
Proof.
  intros d.
  assert (H1 : LLMChain.memory prompt.chain2 = None) by reflexivity.
  assert (H2 : "target_language" ∈ LLMChain.input_keys prompt.chain2)
    by apply list_elem_of_further, list_elem_of_here.
  assert (H3 : d !! "target_language" = None) by (vm_compute; reflexivity).
  split; [exact H1|]. split; [exact H2|]. split; [exact H3|].
  exact (proj2 (missing_input_key (model := echo) prompt.chain2 d
                  "target_language" false initial H1 H2 H3)).
Defined.


Example extra_input_is_echoed :
  (LLMChain__call__ (model := echo) prompt.chain2
     (Dict {[ "sentence" := "Hi"; "target_language" := "Telugu";
              "style" := "formal" ]}) false initial).1
  = Ok {[ "text" := "<Translate the following sentence Hi into Telugu>";
          "sentence" := "Hi"; "target_language" := "Telugu";
          "style" := "formal" ]}.
Proof. vm_compute. reflexivity. Qed.

(** ** Any sequential chain *)

Section AnyChain.

Context {model : Model}.

Lemma prep_inputs_state keys memory v s r s' :
  prep_inputs keys memory v s = (r, s') -> s' = s.
Proof.
  unfold prep_inputs, bind, ret, raise, Memory.load_memory_variables.
  destruct v as [w|d].
  - destruct (elements _) as [|k [|k' rest]];
      [intros Heq; inversion Heq; reflexivity| |
       intros Heq; inversion Heq; reflexivity].
    destruct memory as [m|]; destruct (bool_decide _);
      intros Heq; inversion Heq; reflexivity.
  - destruct memory as [m|]; destruct (bool_decide _);
      intros Heq; inversion Heq; reflexivity.
Qed.

Lemma LLMChain_call_ok c inputs s out s' :
  LLMChain_call c inputs s = (Ok out, s') ->
  exists text a,
    out = ({[ LLMChain.output_key c := a ]} : dict)
    /\ s' = sent s text (OpenAI.temperature (LLMChain.llm c)).
Proof.
  unfold LLMChain_call, bind, lift, ret, OpenAI__call__.
  destruct (select _ inputs) as [sel|e]; [|discriminate].
  destruct (prompt_format _ sel) as [text|e]; [|discriminate].
  destruct (completion _ _) as [a|msg]; [|discriminate].
  intros Heq. inversion Heq. exists text, a. split; reflexivity.
Qed.

Lemma LLMChain_call_raise c inputs s e s' :
  LLMChain_call c inputs s = (Raise e, s') ->
  s' = s
  \/ exists text, s' = sent s text (OpenAI.temperature (LLMChain.llm c)).
Proof.
  unfold LLMChain_call, bind, lift, ret, OpenAI__call__.
  destruct (select _ inputs) as [sel|e0];
    [|intros Heq; inversion Heq; left; reflexivity].
  destruct (prompt_format _ sel) as [text|e0];
    [|intros Heq; inversion Heq; left; reflexivity].
  destruct (completion _ _) as [a|msg]; [discriminate|].
  intros Heq. inversion Heq. right. exists text. reflexivity.
Qed.

Lemma save_context_requests m inputs outputs s r s' :
  Memory.save_context m inputs outputs s = (r, s') ->
  requests s' = requests s.
Proof.
  unfold Memory.save_context, bind, lift.
  destruct (Memory._get_input_output m inputs outputs) as [io|e];
    intros Heq; inversion Heq; reflexivity.
Qed.

Lemma prep_outputs_only keys memory inputs outputs s r s' :
  prep_outputs keys memory inputs outputs true s = (r, s') ->
  requests s' = requests s /\ (forall o, r = Ok o -> o = outputs).
Proof.
  unfold prep_outputs, bind, ret, raise.
  destruct (bool_decide _).
  { intros Heq. inversion Heq. split; [reflexivity|discriminate]. }
  destruct memory as [m|].
  - destruct (Memory.save_context m inputs outputs s) as [[[]|e] s1] eqn:Hs;
      apply save_context_requests in Hs; intros Heq; inversion Heq; subst;
      (split; [exact Hs|]); [intros o Ho; inversion Ho; reflexivity|discriminate].
  - intros Heq. inversion Heq. split; [reflexivity|].
    intros o Ho. inversion Ho. reflexivity.
Qed.

(** One stage of a sequential chain: at most one request, with the
    temperature of the stage's client; when the stage returns, exactly
    one, and what it returns is the answer under its output key. *)
Lemma stage_one_request (c : LLMChain.t) (kv : dict) s out s' :
  LLMChain__call__ c (Dict kv) true s = (out, s') ->
  exists rs,
    requests s' = (requests s ++ rs)%list
    /\ length rs <= 1
    /\ Forall (fun r => temperature r = OpenAI.temperature (LLMChain.llm c)) rs
    /\ forall o, out = Ok o ->
         length rs = 1 /\ exists a, o = ({[ LLMChain.output_key c := a ]} : dict).
Proof.
  unfold LLMChain__call__, Chain__call__. rewrite bind_eq.
  destruct (prep_inputs _ _ _ s) as [[inputs|e] s0] eqn:Hprep;
    apply prep_inputs_state in Hprep; subst s0.
  2:{ intros Heq. inversion Heq. exists []. rewrite app_nil_r.
      split; [reflexivity|]. split; [simpl; lia|]. split; [constructor|].
      discriminate. }
  rewrite bind_eq.
  destruct (LLMChain_call c inputs s) as [[outputs|e] s1] eqn:Hcall.
  - apply LLMChain_call_ok in Hcall as (text & a & -> & ->).
    intros Hout. apply prep_outputs_only in Hout as [Hreq Ho].
    exists [Request text (OpenAI.temperature (LLMChain.llm c))].
    split; [rewrite Hreq; reflexivity|]. split; [simpl; lia|].
    split; [repeat constructor|].
    intros o Hok. split; [reflexivity|]. exists a. apply Ho, Hok.
  - apply LLMChain_call_raise in Hcall as [->|[text ->]];
      intros Heq; inversion Heq; subst.
    + exists []. rewrite app_nil_r. split; [reflexivity|].
      split; [simpl; lia|]. split; [constructor|]. discriminate.
    + exists [Request text (OpenAI.temperature (LLMChain.llm c))].
      split; [reflexivity|]. split; [simpl; lia|].
      split; [repeat constructor|]. discriminate.
Qed.

(** The loop of any sequential chain sends at most one request per stage
    and never sends one again; when it returns it has sent exactly one per
    stage, the known values have the keys they had and the output keys of
    the stages, and whatever is under another key is what it was. *)
Theorem sequential_loop (cs : list LLMChain.t) (kv : dict) (s : state)
    (out : result dict) (s' : state) :
  run_chains cs kv s = (out, s') ->
  exists rs,
    requests s' = (requests s ++ rs)%list
    /\ length rs <= length cs
    /\ forall kv', out = Ok kv' ->
         length rs = length cs
         /\ dom kv' = dom kv ∪ list_to_set (map LLMChain.output_key cs)
         /\ forall k, k ∉ map LLMChain.output_key cs -> kv' !! k = kv !! k.
Proof.
  revert kv s. induction cs as [|c rest IH]; intros kv s.
  - cbn [run_chains]. unfold ret. intros Heq. inversion Heq; subst.
    exists []. rewrite app_nil_r. split; [reflexivity|]. split; [simpl; lia|].
    intros kv' Hk. inversion Hk; subst. split; [reflexivity|].
    split; [|reflexivity].
    cbn [map]. change (list_to_set [] : gset string) with (∅ : gset string).
    rewrite union_empty_r_L. reflexivity.
  - rewrite run_chains_cons, bind_eq.
    destruct (LLMChain__call__ c (Dict kv) true s) as [[o|e] s1] eqn:Hc;
      destruct (stage_one_request c kv s _ s1 Hc) as (rs1 & Hr1 & Hl1 & _ & Ho1).
    + destruct (Ho1 o eq_refl) as (Hlen1 & a & ->).
      intros Hrest. destruct (IH _ _ Hrest) as (rs2 & Hr2 & Hl2 & Ho2).
      exists (rs1 ++ rs2)%list.
      split; [rewrite Hr2, Hr1, app_assoc; reflexivity|].
      split; [rewrite length_app; simpl; lia|].
      intros kv' Hk. destruct (Ho2 kv' Hk) as (Hlen2 & Hdom & Hsame).
      split; [rewrite length_app; simpl; lia|]. split.
      * rewrite Hdom, dom_union_L, dom_singleton_L. cbn [map].
        change (list_to_set (LLMChain.output_key c
                               :: map LLMChain.output_key rest) : gset string)
          with ({[LLMChain.output_key c]}
                  ∪ (list_to_set (map LLMChain.output_key rest) : gset string)).
        apply set_eq. intros k. rewrite !elem_of_union. tauto.
      * intros k Hk'. cbn [map] in Hk'. rewrite not_elem_of_cons in Hk'.
        destruct Hk' as [Hne Hnot]. rewrite (Hsame k Hnot).
        apply lookup_union_r, lookup_singleton_ne. congruence.
    + intros Heq. inversion Heq; subst. exists rs1.
      split; [exact Hr1|]. split; [simpl; lia|]. discriminate.
Qed.

End AnyChain.

Lemma sequential_loop_witness :
  let cs := SequentialChain.chains Simplechain.parent_chain in
  let kv : dict := {[ "name" := "Albert Einstein" ]} in
  let s := (Simplechain.setup initial).2 in
  let run := run_chains (model := failing_at 2) cs kv s in
  run = (run.1, run.2)
  /\ exists rs,
       requests run.2 = (requests s ++ rs)%list /\ length rs <= length cs.
Proof.
  intros cs kv s run.
  assert (H : run = (run.1, run.2)) by (vm_compute; reflexivity).
  split; [exact H|].
  destruct (sequential_loop (model := failing_at 2) cs kv s run.1 run.2 H)
    as (rs & Hr & Hl & _).
  exists rs. split; [exact Hr|exact Hl].
Defined.

Lemma run_chains_raise_witness :
  let kv : dict := {[ "name" := "Albert Einstein" ]} in
  let s := (Simplechain.setup initial).2 in
  let pre := run_chains (model := failing_at 1) [Simplechain.chain] kv s in
  let kv' := match pre.1 with Ok kv' => kv' | Raise _ => ∅ end in
  let failed :=
    LLMChain__call__ (model := failing_at 1) Simplechain.chain2 (Dict kv')
      true pre.2 in
  pre = (Ok kv', pre.2)
  /\ failed = (Raise (APIError "rate limit"), failed.2)
  /\ run_chains (model := failing_at 1)
       ([Simplechain.chain] ++ Simplechain.chain2 :: [Simplechain.chain3])
       kv s
     = (Raise (APIError "rate limit"), failed.2).
Proof.
  intros kv s pre kv' failed.
  assert (H1 : pre = (Ok kv', pre.2)) by (vm_compute; reflexivity).
  assert (H2 : failed = (Raise (APIError "rate limit"), failed.2))
    by (vm_compute; reflexivity).
  split; [exact H1|]. split; [exact H2|].
  exact (run_chains_raise (model := failing_at 1) [Simplechain.chain]
           Simplechain.chain2 [Simplechain.chain3] kv kv' s pre.2
           (APIError "rate limit") failed.2 H1 H2).
Defined.

(** ** The validator of the sequential chain *)

Section Validator.

Import SequentialChain.

Lemma validate_from_outputs (cs : list LLMChain.t) :
  forall known known' : gset string,
    validate_from known cs = Ok known' ->
    known' = known ∪ list_to_set (map LLMChain.output_key cs)
    /\ NoDup (map LLMChain.output_key cs)
    /\ forall c, c ∈ cs -> LLMChain.output_key c ∉ known.
Proof.
  induction cs as [|c rest IH]; intros known known' Hv.
  - cbn [validate_from] in Hv. inversion Hv; subst.
    split; [cbn [map]; change (list_to_set [] : gset string) with (∅ : gset string);
            rewrite union_empty_r_L; reflexivity|].
    split; [constructor|]. intros c Hc. inversion Hc.
  - cbn [validate_from] in Hv.
    destruct (bool_decide _) eqn:Hmiss in Hv; [discriminate|].
    destruct (bool_decide _) eqn:Hover in Hv; [discriminate|].
    apply bool_decide_eq_false in Hover.
    assert (Hfresh : LLMChain.output_key c ∉ known).
    { intros Hin. apply Hover. intros Hempty.
      assert (Hk : LLMChain.output_key c
                   ∈ known ∩ list_to_set (LLMChain.output_keys c)).
      { apply elem_of_intersection. split; [exact Hin|].
        apply elem_of_list_to_set, list_elem_of_here. }
      rewrite Hempty in Hk. apply elem_of_empty in Hk. exact Hk. }
    destruct (IH _ _ Hv) as (-> & Hnd & Hrest).
    split.
    { cbn [map]. unfold LLMChain.output_keys.
      apply set_eq. intros k.
      rewrite !elem_of_union, !elem_of_list_to_set, !elem_of_cons,
        elem_of_nil.
      tauto. }
    split.
    + cbn [map]. constructor; [|exact Hnd].
      intros Hin. apply list_elem_of_fmap in Hin as (c' & Heq & Hc').
      apply (Hrest c' Hc'). rewrite <- Heq.
      apply elem_of_union_r, elem_of_list_to_set, list_elem_of_here.
    + intros c' Hc'. apply elem_of_cons in Hc' as [->|Hc']; [exact Hfresh|].
      intros Hin. apply (Hrest c' Hc'). apply elem_of_union_l, Hin.
Qed.

Lemma validate_from_complete (cs : list LLMChain.t) :
  forall known : gset string,
    (forall i c k,
       cs !! i = Some c -> k ∈ LLMChain.input_keys c ->
       k ∈ known \/ k ∈ memory_variables c
       \/ exists j c', j < i /\ cs !! j = Some c'
                       /\ k ∈ LLMChain.output_keys c') ->
    NoDup (map LLMChain.output_key cs) ->
    (forall c, c ∈ cs -> LLMChain.output_key c ∉ known) ->
    validate_from known cs
    = Ok (known ∪ list_to_set (map LLMChain.output_key cs)).
Proof.
  induction cs as [|c rest IH]; intros known Hin Hnd Hfresh.
  - cbn [validate_from map].
    change (list_to_set [] : gset string) with (∅ : gset string).
    rewrite union_empty_r_L. reflexivity.
  - cbn [validate_from]. rewrite bool_decide_false.
    2:{ intros Hne. apply Hne. apply set_eq. intros k.
        rewrite !elem_of_difference, elem_of_list_to_set, elem_of_empty.
        split; [|intros []]. intros [[Hk Hnk] Hnm].
        destruct (Hin 0 c k eq_refl Hk) as [H|[H|(j & c' & Hj & _)]];
          [contradiction|contradiction|lia]. }
    rewrite bool_decide_false.
    2:{ intros Hne. apply Hne. apply set_eq. intros k.
        rewrite elem_of_intersection, elem_of_list_to_set, elem_of_empty.
        split; [|intros []]. intros [Hk Hout].
        apply list_elem_of_singleton in Hout. subst k.
        apply (Hfresh c (list_elem_of_here _ _)), Hk. }
    cbn [map] in Hnd. apply NoDup_cons in Hnd as [Hnotin Hnd].
    rewrite IH.
    + f_equal. cbn [map]. unfold LLMChain.output_keys.
      apply set_eq. intros k.
      rewrite !elem_of_union, !elem_of_list_to_set, !elem_of_cons,
        elem_of_nil.
      tauto.
    + intros i c' k Hi Hk.
      destruct (Hin (S i) c' k Hi Hk) as [H|[H|(j & c'' & Hj & Hc'' & Hout)]].
      * left. apply elem_of_union_l, H.
      * right. left. exact H.
      * destruct j as [|j]; simpl in Hc''.
        -- inversion Hc''; subst c''. left.
           apply elem_of_union_r, elem_of_list_to_set, Hout.
        -- right. right. exists j, c''. split; [lia|]. split; assumption.
    + exact Hnd.
    + intros c' Hc' Hk. apply elem_of_union in Hk as [Hk|Hk].
      * apply (Hfresh c' (list_elem_of_further _ _ _ Hc')), Hk.
      * apply elem_of_list_to_set, list_elem_of_singleton in Hk.
        apply Hnotin. rewrite <- Hk. apply list_elem_of_fmap.
        exists c'. split; [reflexivity|exact Hc'].
Qed.

(** The validation run when a sequential chain is built accepts exactly
    the well-wired chains: every input key of a stage is an input
    variable of the chain, or a memory variable of that stage, or an
    output key of a stage before it; no output key of a stage is an input
    variable of the chain or is produced twice; and every output variable
    the chain declares is an input variable or an output key of a
    stage. *)
Theorem validator_accepts_exactly (p : SequentialChain.t) :
  validate_chains p = Ok tt
  <-> ((forall i c k,
          chains p !! i = Some c -> k ∈ LLMChain.input_keys c ->
          k ∈ input_variables p \/ k ∈ memory_variables c
          \/ exists j c', j < i /\ chains p !! j = Some c'
                          /\ k ∈ LLMChain.output_keys c')
       /\ NoDup (map LLMChain.output_key (chains p))
       /\ (forall c, c ∈ chains p ->
             LLMChain.output_key c ∉ input_variables p)
       /\ (forall k, k ∈ output_variables p ->
             k ∈ input_variables p
             \/ exists c, c ∈ chains p /\ k = LLMChain.output_key c)).
Proof.
  unfold validate_chains. split.
  - destruct (validate_from _ (chains p)) as [known|e] eqn:Hv; [|discriminate].
    destruct (bool_decide _) eqn:Hout; [discriminate|]. intros _.
    apply bool_decide_eq_false in Hout.
    destruct (validate_from_outputs _ _ _ Hv) as (Hknown & Hnd & Hfresh).
    split; [|split; [exact Hnd|split]].
    + intros i c k Hi Hk.
      destruct (validate_from_inputs _ _ _ Hv i c k Hi Hk) as [H|[H|H]].
      * left. apply elem_of_list_to_set in H. exact H.
      * right. left. exact H.
      * right. right. exact H.
    + intros c Hc Hin. apply (Hfresh c Hc), elem_of_list_to_set, Hin.
    + intros k Hk.
      destruct (decide (k ∈ known)) as [Hin|Hnot].
      * rewrite Hknown in Hin. apply elem_of_union in Hin as [Hin|Hin].
        -- left. apply elem_of_list_to_set in Hin. exact Hin.
        -- right. apply elem_of_list_to_set, list_elem_of_fmap in Hin.
           destruct Hin as (c & Heq & Hc). exists c. auto.
      * exfalso. apply Hout. intros Hempty.
        assert (Hd : k ∈ (list_to_set (output_variables p) : gset string)
                          ∖ known).
        { apply elem_of_difference. split; [|exact Hnot].
          apply elem_of_list_to_set, Hk. }
        rewrite Hempty in Hd. apply elem_of_empty in Hd. exact Hd.
  - intros (Hin & Hnd & Hfresh & Hout).
    rewrite (validate_from_complete (chains p)
               (list_to_set (input_variables p))).
    + rewrite bool_decide_false; [reflexivity|].
      intros Hne. apply Hne. apply set_eq. intros k.
      rewrite elem_of_difference, elem_of_empty, elem_of_union,
        !elem_of_list_to_set.
      split; [|intros []]. intros [Hk Hnot]. apply Hnot.
      destruct (Hout k Hk) as [H|(c & Hc & ->)]; [left; exact H|].
      right. apply list_elem_of_fmap. exists c. auto.
    + intros i c k Hi Hk.
      destruct (Hin i c k Hi Hk) as [H|[H|H]].
      * left. apply elem_of_list_to_set, H.
      * right. left. exact H.
      * right. right. exact H.
    + exact Hnd.
    + intros c Hc Hk. apply (Hfresh c Hc).
      apply elem_of_list_to_set in Hk. exact Hk.
Qed.

End Validator.

Example swapped_stages_rejected :
  SequentialChain.validate_chains
    (SequentialChain.mk
       [Simplechain.chain2; Simplechain.chain; Simplechain.chain3]
       ["name"] ["person"; "dob"; "description"])
  = Raise (ValueError "Missing required input keys").
Proof. vm_compute. reflexivity. Qed.

Example undeclared_output_rejected :
  SequentialChain.validate_chains
    (SequentialChain.mk [Simplechain.chain] ["name"] ["dob"])
  = Raise (ValueError "Expected output variables that were not found").
Proof. vm_compute. reflexivity. Qed.

(** ** The text of a buffer *)

Section BufferText.

Import ConversationBufferMemory.

Lemma append_assoc3 (a b c : string) : (a ++ b) ++ c = a ++ b ++ c.
Proof.
  induction a as [|x a IH]; [reflexivity|].
  change (String x ((a ++ b) ++ c) = String x (a ++ b ++ c)).
  f_equal. exact IH.
Qed.

Lemma join_app (sep : string) (l1 l2 : list string) :
  l1 ≠ [] -> l2 ≠ [] ->
  join sep (l1 ++ l2) = join sep l1 ++ sep ++ join sep l2.
Proof.
  intros H1 H2. induction l1 as [|p [|q rest] IH]; [contradiction| |].
  - destruct l2 as [|r l2]; [contradiction|]. reflexivity.
  - change (p ++ sep ++ join sep ((q :: rest) ++ l2)
            = (p ++ sep ++ join sep (q :: rest)) ++ sep ++ join sep l2).
    rewrite IH by discriminate. rewrite !append_assoc3. reflexivity.
Qed.

(** Saving one more exchange adds two lines to the text a buffer is shown
    as, "Human: " with the input and "AI: " with the output, after the
    lines that were there. *)
Theorem buffer_text_grows (b : list (string * string)) (i o : string) :
  get_buffer_string (b ++ [(i, o)])
  = match b with
    | [] => "Human: " ++ i ++ nl ++ "AI: " ++ o
    | _ :: _ => get_buffer_string b ++ nl ++ "Human: " ++ i ++ nl ++ "AI: " ++ o
    end.
Proof.
  unfold get_buffer_string. rewrite map_app, concat_app.
  destruct b as [|[i0 o0] b]; [reflexivity|].
  rewrite join_app; [reflexivity|discriminate|discriminate].
Qed.

End BufferText.

(** ** Templates without placeholders *)

Section PlainText.

Import Formatter.

Lemma parse_plain (s : string) :
  (forall c, c ∈ list_ascii_of_string s -> c ≠ "{"%char /\ c ≠ "}"%char) ->
  parse_from Text s
  = (match s with EmptyString => [] | _ => [Literal s] end, None).
Proof.
  induction s as [|c s IH]; intros Hplain; [reflexivity|].
  destruct (Hplain c (list_elem_of_here _ _)) as [Hopen Hclose].
  cbn [parse_from]. rewrite !bool_decide_false by assumption.
  rewrite IH.
  - destruct s; reflexivity.
  - intros c' Hc'. apply Hplain. cbn [list_ascii_of_string].
    apply list_elem_of_further, Hc'.
Qed.

(** A text without braces is a template without variables: it can be
    built with no declared variable, renders to itself when no argument is
    given, and raises the unused-variable error, naming every key, for any
    other mapping. *)
Theorem plain_text_renders_to_itself (s : string) (kwargs : dict) :
  (forall c, c ∈ list_ascii_of_string s -> c ≠ "{"%char /\ c ≠ "}"%char) ->
  PromptTemplate.new [] s = Ok (PromptTemplate.mk [] s)
  /\ format s ∅ = Ok s
  /\ (kwargs ≠ ∅ -> format s kwargs = Raise (KeyError_extra (dom kwargs))).
Proof.
  intros Hplain.
  assert (Hfmt : forall kw : dict,
    format s kw
    = if bool_decide (dom kw ∖ ∅ = (∅ : gset string)) then Ok s
      else Raise (KeyError_extra (dom kw ∖ ∅))).
  { intros kw. unfold format. rewrite _vformat_S. unfold parse.
    rewrite (parse_plain s Hplain).
    destruct s as [|c s]; cbn [fst snd render join]; unfold check_unused_args;
      cbv zeta; destruct (bool_decide _); reflexivity. }
  assert (Hempty : format s ∅ = Ok s).
  { rewrite Hfmt, bool_decide_true; [reflexivity|].
    rewrite dom_empty_L. apply difference_diag_L. }
  split; [|split; [exact Hempty|]].
  - unfold PromptTemplate.new, PromptTemplate.template_is_valid,
      check_valid_template, validate_input_variables.
    cbn [PromptTemplate.template PromptTemplate.input_variables].
    change (list_to_set [] : gset string) with (∅ : gset string).
    rewrite gset_to_gmap_empty, Hempty. reflexivity.
  - intros Hne. rewrite Hfmt, difference_empty_L.
    rewrite bool_decide_false; [reflexivity|].
    intros Hdom. apply Hne, dom_empty_iff_L, Hdom.
Qed.

End PlainText.

Lemma plain_text_renders_to_itself_witness :
  let s := "******Language Translation**********" in
  let kwargs : dict := {[ "sentence" := "Hi" ]} in
  (forall c, c ∈ list_ascii_of_string s -> c ≠ "{"%char /\ c ≠ "}"%char)
  /\ Formatter.format s ∅ = Ok s
  /\ Formatter.format s kwargs = Raise (KeyError_extra (dom kwargs)).
Proof.
  intros s kwargs.
  assert (H : forall c, c ∈ list_ascii_of_string s ->
                        c ≠ "{"%char /\ c ≠ "}"%char).
  { intros c Hc.
    assert (Hall : Forall (fun c => c ≠ "{"%char /\ c ≠ "}"%char)
                     (list_ascii_of_string s)).
    { apply Forall_forall. intros c' Hc'.
      apply (bool_decide_unpack _).
      revert c' Hc'. apply Forall_forall.
      apply (bool_decide_unpack _). vm_compute. reflexivity. }
    rewrite Forall_forall in Hall. apply Hall, Hc. }
  destruct (plain_text_renders_to_itself s kwargs H) as (_ & Hself & Hextra).
  split; [exact H|]. split; [exact Hself|].
  apply Hextra. intros Hempty.
  assert (Hl : kwargs !! "sentence" = Some "Hi") by (vm_compute; reflexivity).
  rewrite Hempty in Hl. discriminate.
Defined.
